(** * Delegation checker: derivation, record decoding, resolution and ping

    A shallow embedding of [check_delegation.ts] (record decoder, PDA
    derivation, [checkDelegation], [checkMultipleDelegations]) and of
    [sendPingTransaction] from the wallet-enabled React component.

    Buffers are lists of bytes, JavaScript exceptions are values of type
    [Thrown], and asynchronous code is sequenced in a state-and-error monad
    whose state is the trace of observable events (console output, RPC
    calls, signer calls). *)

From Stdlib Require Import List String Ascii NArith PeanoNat Lia Bool.
From Stdlib Require Import Strings.Byte DecimalString.
Import ListNotations.

Local Open Scope string_scope.
Local Open Scope list_scope.

(** ** JavaScript values that can be thrown *)

(** [catch (error)] in the source distinguishes [Error] instances, whose
    [message] it reads, from any other thrown value. *)
Inductive Thrown : Type :=
| ErrorObj (message : string)
| NonError (shown : string).

(** [error instanceof Error ? error.message : 'Unknown error'] *)
Definition error_message (error : Thrown) : string :=
  match error with
  | ErrorObj message => message
  | NonError _ => "Unknown error"
  end.

(** A synchronous computation either throws or returns. *)
Definition Completion (A : Type) : Type := (Thrown + A)%type.

(** ** Byte buffers *)

Module Buffer.

Definition t : Type := list byte.

(** [data.slice(start, end)] for non-negative indices: both ends are
    clamped to the length of the buffer. *)
Definition slice (start stop : nat) (data : t) : t :=
  firstn (stop - start) (skipn start data).

Definition byte_of_N (n : N) : byte :=
  match Byte.of_N (n mod 256) with
  | Some b => b
  | None => x00
  end.

(** Little-endian value of a byte list; the big-endian value of a buffer
    is the little-endian value of its reversal. *)
Fixpoint N_of_le (l : t) : N :=
  match l with
  | [] => 0
  | b :: rest => Byte.to_N b + 256 * N_of_le rest
  end.

Fixpoint le_of_N (len : nat) (n : N) : t :=
  match len with
  | O => []
  | S k => byte_of_N n :: le_of_N k (n / 256)
  end.

Definition N_of_be (l : t) : N := N_of_le (rev l).
Definition be_of_N (len : nat) (n : N) : t := rev (le_of_N len n).

End Buffer.

(** ** Big numbers ([bn.js]) as used by [PublicKey]

    [BN], [bs58] and [PublicKey] are imported from [@solana/web3.js] and its
    dependencies, not defined by the repository.  They are modelled here so
    that the repository's functions can be run: a key is a number that fits
    in 32 bytes, its buffer is that number on 32 big-endian bytes, and its
    string form is the base-58 rendering of the buffer. *)

Module BN.

Definition t : Type := N.

(** Modelled from the spec: [BN] is imported, not under src/; a key is
    "raw bytes internally" (section 3).  [new BN(bytes)] reads the bytes
    as a big-endian number. *)
Definition ofBytes (bytes : Buffer.t) : t := Buffer.N_of_be bytes.

(** Modelled from the spec: [BN] is imported, not under src/.
    [bn.byteLength()] is [ceil(bitLength / 8)], zero for zero. *)
Definition byteLength (n : t) : N := (N.size n + 7) / 8.

End BN.

(** ** Base-58 ([bs58]) *)

Module bs58.

Definition ALPHABET : string :=
  "123456789ABCDEFGHJKLMNPQRSTUVWXYZabcdefghijkmnopqrstuvwxyz".

Fixpoint index_from (c : ascii) (alphabet : string) (i : N) : option N :=
  match alphabet with
  | EmptyString => None
  | String a rest =>
      if Ascii.eqb a c then Some i else index_from c rest (N.succ i)
  end.

Definition digit_of_char (c : ascii) : option N := index_from c ALPHABET 0.

Definition char_of_digit (d : N) : ascii :=
  match String.get (N.to_nat d) ALPHABET with
  | Some c => c
  | None => "1"%char
  end.

(** Number of leading ['1'] characters and the remaining suffix. *)
Fixpoint strip_leader (s : string) : nat * string :=
  match s with
  | String "1"%char rest => let (z, r) := strip_leader rest in (S z, r)
  | _ => (O, s)
  end.

(** Value of a digit string, most significant digit first; [None] on a
    character outside the alphabet. *)
Fixpoint value_from (acc : N) (s : string) : option N :=
  match s with
  | EmptyString => Some acc
  | String c rest =>
      match digit_of_char c with
      | Some d => value_from (acc * 58 + d) rest
      | None => None
      end
  end.

(** Modelled from the spec: [bs58] is imported, not under src/; keys are
    "canonically represented as a base-58 string for I/O" (section 3).
    [bs58.decode(string)]: each leading ['1'] is a zero byte, the rest is
    the shortest big-endian form of the number; throws on a character
    outside the alphabet. *)
Definition decode (source : string) : Completion Buffer.t :=
  let (zeroes, rest) := strip_leader source in
  match value_from 0 rest with
  | None => inl (ErrorObj "Non-base58 character")
  | Some v =>
      inr (repeat x00 zeroes ++ Buffer.be_of_N (N.to_nat (BN.byteLength v)) v)
  end.

Fixpoint strip_zero_bytes (l : Buffer.t) : nat * Buffer.t :=
  match l with
  | x00 :: rest => let (z, r) := strip_zero_bytes rest in (S z, r)
  | _ => (O, l)
  end.

(** Base-58 digits of [n], least significant first. *)
Fixpoint digits_le (fuel : nat) (n : N) : list N :=
  match fuel with
  | O => []
  | S k => if N.eqb n 0 then [] else (n mod 58)%N :: digits_le k (n / 58)
  end.

Definition string_of_chars (l : list ascii) : string :=
  fold_right String EmptyString l.

(** Modelled from the spec: [bs58] is imported, not under src/.
    [bs58.encode(bytes)]: a ['1'] per leading zero byte, then the base-58
    digits of the rest. *)
Definition encode (source : Buffer.t) : string :=
  let (zeroes, rest) := strip_zero_bytes source in
  let v := Buffer.N_of_be rest in
  string_of_chars
    (repeat "1"%char zeroes
     ++ map char_of_digit (rev (digits_le (N.to_nat (N.size v)) v))).

End bs58.

(** ** [PublicKey] of [@solana/web3.js] *)

Definition PUBLIC_KEY_LENGTH : nat := 32.

Record PublicKey : Type := mkPublicKey { _bn : BN.t }.

Module PublicKeyOps.

Definition invalid_input : Thrown := ErrorObj "Invalid public key input".

(** Modelled from the spec: [PublicKey] is imported, not under src/; "a
    32-byte public identifier" (section 3).  Common tail of the
    constructor: the number must fit in 32 bytes. *)
Definition ofBN (bn : BN.t) : Completion PublicKey :=
  if (N.of_nat PUBLIC_KEY_LENGTH <? BN.byteLength bn)%N
  then inl invalid_input
  else inr (mkPublicKey bn).

(** Modelled from the spec: [PublicKey] is imported, not under src/; "any
    string accepted as input must decode to exactly 32 bytes" (section 3).
    [new PublicKey(value)] for a string. *)
Definition ofString (value : string) : Completion PublicKey :=
  match bs58.decode value with
  | inl e => inl e
  | inr decoded =>
      if Nat.eqb (List.length decoded) PUBLIC_KEY_LENGTH
      then ofBN (BN.ofBytes decoded)
      else inl invalid_input
  end.

(** Modelled from the spec: [PublicKey] is imported, not under src/.
    [new PublicKey(value)] for a [Buffer] or [Uint8Array]. *)
Definition ofBytes (value : Buffer.t) : Completion PublicKey :=
  ofBN (BN.ofBytes value).

(** Modelled from the spec: [PublicKey] is imported, not under src/.
    [toBuffer()] / [toBytes()]: the number as 32 big-endian bytes,
    zero-padded on the left. *)
Definition toBuffer (k : PublicKey) : Buffer.t :=
  Buffer.be_of_N PUBLIC_KEY_LENGTH (_bn k).

(** Modelled from the spec: [PublicKey] is imported, not under src/.
    [toString()] / [toBase58()]: base-58 of the 32 bytes. *)
Definition toString (k : PublicKey) : string := bs58.encode (toBuffer k).

End PublicKeyOps.

(** ** Constants of [check_delegation.ts] *)

Definition DELEGATION_PROGRAM_STR : string :=
  "DELeGGvXpWV2fqJUhqcF5ZSYMS4JTLjteaAMARRSaeSh".
Definition DELEGATION_RECORD_DATA_SIZE : nat := 96.
Definition DEFAULT_RPC_URL : string := "https://api.devnet.solana.com".

(** ** Record decoder *)

(** [extractDelegationIdentity(data)]: [null] unless the buffer has exactly
    96 bytes; otherwise a [PublicKey] built from bytes 8..39. *)
Definition extractDelegationIdentity (data : Buffer.t)
  : Completion (option PublicKey) :=
  if negb (Nat.eqb (List.length data) DELEGATION_RECORD_DATA_SIZE) then inr None
  else
    let identityBytes := Buffer.slice 8 40 data in
    match PublicKeyOps.ofBytes identityBytes with
    | inl e => inl e
    | inr k => inr (Some k)
    end.

(** ** Observable events and the asynchronous monad *)

Record Connection : Type := mkConnection {
  rpcEndpoint : string;
  commitment : string
}.

(** [AccountInfo<Buffer>] as returned by [connection.getAccountInfo]. *)
Record AccountInfo : Type := mkAccountInfo {
  lamports : N;
  owner : PublicKey;
  data : Buffer.t;
  executable : bool;
  rentEpoch : N
}.

Inductive Instruction : Type :=
| SystemTransfer (fromPubkey toPubkey : PublicKey) (amount : N).

Record Transaction : Type := mkTransaction {
  instructions : list Instruction;
  recentBlockhash : option string;
  feePayer : option PublicKey;
  signatures : list (PublicKey * option Buffer.t)
}.

(** Everything the program does to the outside world, with the answer it
    received where there is one. *)
Inductive Event : Type :=
| ConsoleLog (line : string)
| ConsoleError (label : string) (error : Thrown)
| RpcGetAccountInfo (connection : Connection) (address : PublicKey)
    (level : string) (response : Completion (option AccountInfo))
| RpcGetLatestBlockhash (connection : Connection)
    (response : Completion (string * N))
| SignerCall (unsigned : Transaction) (response : Completion Transaction)
| RpcSendRawTransaction (connection : Connection) (raw : Buffer.t)
    (response : Completion string)
| RpcConfirmTransaction (connection : Connection)
    (signature blockhash : string) (lastValidBlockHeight : N)
    (response : Completion (option string)).

Definition History : Type := list Event.

(** An asynchronous computation reads the history of events so far and
    yields a completion together with the events it added. *)
Definition Async (A : Type) : Type := History -> Completion A * list Event.

Module AsyncOps.

Definition ret {A} (a : A) : Async A := fun _ => (inr a, []).

Definition throw {A} (e : Thrown) : Async A := fun _ => (inl e, []).

Definition lift {A} (c : Completion A) : Async A := fun _ => (c, []).

Definition bind {A B} (m : Async A) (k : A -> Async B) : Async B :=
  fun h =>
    let (r, out) := m h in
    match r with
    | inl e => (inl e, out)
    | inr a => let (r', out') := k a (h ++ out) in (r', out ++ out')
    end.

(** [try { m } catch (error) { handler(error) }] *)
Definition try_catch {A} (m : Async A) (handler : Thrown -> Async A)
  : Async A :=
  fun h =>
    let (r, out) := m h in
    match r with
    | inr a => (inr a, out)
    | inl e => let (r', out') := handler e (h ++ out) in (r', out ++ out')
    end.

Definition emit (ev : Event) : Async unit := fun _ => (inr tt, [ev]).

(** A call to an outside party: its answer may depend on all that
    happened before, and the call is recorded with its answer. *)
Definition perform {A} (answer : History -> Completion A)
    (record : Completion A -> Event) : Async A :=
  fun h => (answer h, [record (answer h)]).

Definition console_log (line : string) : Async unit :=
  emit (ConsoleLog line).

Definition console_error (label : string) (error : Thrown) : Async unit :=
  emit (ConsoleError label error).

End AsyncOps.

Import AsyncOps.

Declare Scope async_scope.
Delimit Scope async_scope with async.
Notation "x <- m ;; k" := (bind m (fun x => k))
  (at level 61, m at next level, right associativity) : async_scope.
Notation "m ;;; k" := (bind m (fun _ => k))
  (at level 61, right associativity) : async_scope.
Local Open Scope async_scope.

(** Network events are the RPC calls. *)
Definition is_network (ev : Event) : bool :=
  match ev with
  | RpcGetAccountInfo _ _ _ _ => true
  | RpcGetLatestBlockhash _ _ => true
  | RpcSendRawTransaction _ _ _ => true
  | RpcConfirmTransaction _ _ _ _ _ => true
  | ConsoleLog _ | ConsoleError _ _ | SignerCall _ _ => false
  end.

(** ** The outside world *)

(** The parts of [@solana/web3.js] and of the cluster that the program
    calls but does not define.  RPC answers may depend on the history. *)
Record World : Type := mkWorld {
  (** [PublicKey.findProgramAddressSync(seeds, programId)] *)
  findProgramAddressSync :
    list Buffer.t -> PublicKey -> Completion (PublicKey * N);
  (** [new Connection(endpoint, commitment)] rejects some endpoints. *)
  endpoint_rejected : string -> option Thrown;
  getAccountInfo_answer :
    History -> Connection -> PublicKey -> string ->
    Completion (option AccountInfo);
  getLatestBlockhash_answer : History -> Connection -> Completion (string * N);
  (** [transaction.serialize()] *)
  serialize : Transaction -> Completion Buffer.t;
  sendRawTransaction_answer :
    History -> Connection -> Buffer.t -> Completion string;
  confirmTransaction_answer :
    History -> Connection -> string -> string -> N ->
    Completion (option string)
}.

(** The wallet's [signTransaction] callback. *)
Definition Signer : Type := History -> Transaction -> Completion Transaction.

(** ** Results of [check_delegation.ts] *)

Inductive Status : Type := DELEGATED | NOT_DELEGATED.

Record PdaAccount : Type := mkPdaAccount {
  pda_lamports : N;
  pda_owner : string;
  dataLength : nat;
  pda_executable : bool;
  pda_rentEpoch : N
}.

Record RawData : Type := mkRawData {
  discriminator : list N;
  identityBytes : list N
}.

Record DelegationResult : Type := mkDelegationResult {
  accountPubkey : string;
  delegationPDA : string;
  status : Status;
  validatorIdentity : option string;
  pdaAccount : option PdaAccount;
  rawData : option RawData
}.

(** [Array.from(buffer)] *)
Definition Array_from (b : Buffer.t) : list N := map Byte.to_N b.

(** [new TextEncoder().encode(s)] for the ASCII strings of the source. *)
Definition TextEncoder_encode (s : string) : Buffer.t := list_byte_of_string s.

(** [rpcUrl || DEFAULT_RPC_URL]: [undefined] and the empty string are falsy. *)
Definition or_default (rpcUrl : option string) (dflt : string) : string :=
  match rpcUrl with
  | Some (String c rest) => String c rest
  | Some EmptyString | None => dflt
  end.

(** [`${n}`] for an array length. *)
Definition decimal (n : nat) : string :=
  DecimalString.NilZero.string_of_uint (Nat.to_uint n).

Section Program.

Variable W : World.

(** [new Connection(endpoint, commitment)] *)
Definition new_Connection (endpoint level : string) : Completion Connection :=
  match endpoint_rejected W endpoint with
  | Some e => inl e
  | None => inr (mkConnection endpoint level)
  end.

(** [connection.getAccountInfo(address, commitment)] *)
Definition getAccountInfo (connection : Connection) (address : PublicKey)
    (level : string) : Async (option AccountInfo) :=
  perform (fun h => getAccountInfo_answer W h connection address level)
          (RpcGetAccountInfo connection address level).

(** [connection.getLatestBlockhash()] *)
Definition getLatestBlockhash (connection : Connection)
  : Async (string * N) :=
  perform (fun h => getLatestBlockhash_answer W h connection)
          (RpcGetLatestBlockhash connection).

(** [connection.sendRawTransaction(raw)] *)
Definition sendRawTransaction (connection : Connection) (raw : Buffer.t)
  : Async string :=
  perform (fun h => sendRawTransaction_answer W h connection raw)
          (RpcSendRawTransaction connection raw).

(** [connection.confirmTransaction({signature, blockhash,
    lastValidBlockHeight})] *)
Definition confirmTransaction (connection : Connection)
    (signature blockhash : string) (lastValidBlockHeight : N)
  : Async (option string) :=
  perform (fun h => confirmTransaction_answer W h connection signature
                      blockhash lastValidBlockHeight)
          (RpcConfirmTransaction connection signature blockhash
             lastValidBlockHeight).

(** ** PDA derivation *)

(** [getDelegationRecordPDA(accountPubkey)] *)
Definition getDelegationRecordPDA (accountPubkey : PublicKey)
  : Async PublicKey :=
  delegationProgram <- lift (PublicKeyOps.ofString DELEGATION_PROGRAM_STR) ;;
  let seeds :=
    [TextEncoder_encode "delegation"; PublicKeyOps.toBuffer accountPubkey] in
  found <- lift (findProgramAddressSync W seeds delegationProgram) ;;
  ret (fst found).

(** ** Delegation resolver *)

(** [checkDelegation(accountPubkeyStr, rpcUrl)] *)
Definition checkDelegation (accountPubkeyStr : string)
    (rpcUrl : option string) : Async DelegationResult :=
  let finalRpcUrl := or_default rpcUrl DEFAULT_RPC_URL in
  console_log ("Checking delegation for account: " ++ accountPubkeyStr) ;;;
  console_log ("Using RPC URL: " ++ finalRpcUrl) ;;;
  try_catch
    (accountPubkey <- lift (PublicKeyOps.ofString accountPubkeyStr) ;;
     connection <- lift (new_Connection finalRpcUrl "confirmed") ;;
     delegationPDA <- getDelegationRecordPDA accountPubkey ;;
     console_log ("Delegation PDA: " ++ PublicKeyOps.toString delegationPDA) ;;;
     pdaAccountInfo <- getAccountInfo connection delegationPDA "confirmed" ;;
     let result :=
       {| accountPubkey := accountPubkeyStr;
          delegationPDA := PublicKeyOps.toString delegationPDA;
          status := NOT_DELEGATED;
          validatorIdentity := None;
          pdaAccount := None;
          rawData := None |} in
     match pdaAccountInfo with
     | None =>
         console_log "No delegation found - PDA account does not exist" ;;;
         ret result
     | Some info =>
         if (lamports info =? 0)%N then
           console_log
             "No delegation found - PDA account exists but has 0 lamports" ;;;
           ret result
         else
           let stored :=
             {| pda_lamports := lamports info;
                pda_owner := PublicKeyOps.toString (owner info);
                dataLength := List.length (data info);
                pda_executable := executable info;
                pda_rentEpoch := rentEpoch info |} in
           identity <- lift (extractDelegationIdentity (data info)) ;;
           match identity with
           | Some key =>
               let shown := PublicKeyOps.toString key in
               console_log
                 ("✅ Account is DELEGATED to validator: " ++ shown) ;;;
               ret {| accountPubkey := accountPubkeyStr;
                      delegationPDA := PublicKeyOps.toString delegationPDA;
                      status := DELEGATED;
                      validatorIdentity := Some shown;
                      pdaAccount := Some stored;
                      rawData :=
                        Some {| discriminator :=
                                  Array_from (Buffer.slice 0 8 (data info));
                                identityBytes :=
                                  Array_from (Buffer.slice 8 40 (data info)) |} |}
           | None =>
               console_log
                 "❌ Account data found but could not extract valid validator identity" ;;;
               ret {| accountPubkey := accountPubkeyStr;
                      delegationPDA := PublicKeyOps.toString delegationPDA;
                      status := NOT_DELEGATED;
                      validatorIdentity := None;
                      pdaAccount := Some stored;
                      rawData := None |}
           end
     end)
    (fun error =>
       console_error "Error checking delegation:" error ;;;
       throw (ErrorObj ("Failed to check delegation: " ++ error_message error))).

(** The entry pushed for a key whose check threw. *)
Definition placeholder (pubkey : string) : DelegationResult :=
  {| accountPubkey := pubkey;
     delegationPDA := "";
     status := NOT_DELEGATED;
     validatorIdentity := None;
     pdaAccount := None;
     rawData := None |}.

(** The [for ... of] loop of [checkMultipleDelegations]; [results] is the
    array being filled by [push]. *)
Fixpoint checkMultiple_loop (pubkeys : list string) (rpcUrl : option string)
    (results : list DelegationResult) : Async (list DelegationResult) :=
  match pubkeys with
  | [] => ret results
  | pubkey :: rest =>
      pushed <-
        try_catch
          (result <- checkDelegation pubkey rpcUrl ;;
           ret (results ++ [result]))
          (fun error =>
             console_error
               ("Failed to check delegation for " ++ pubkey ++ ":") error ;;;
             ret (results ++ [placeholder pubkey])) ;;
      checkMultiple_loop rest rpcUrl pushed
  end.

(** [checkMultipleDelegations(accountPubkeys, rpcUrl)] *)
Definition checkMultipleDelegations (accountPubkeys : list string)
    (rpcUrl : option string) : Async (list DelegationResult) :=
  console_log
    ("Checking delegation for " ++ decimal (List.length accountPubkeys)
     ++ " accounts") ;;;
  checkMultiple_loop accountPubkeys rpcUrl [].

(** ** Ping transaction *)

Definition new_Transaction : Transaction :=
  {| instructions := []; recentBlockhash := None; feePayer := None;
     signatures := [] |}.

(** [transaction.add(instruction)] *)
Definition Transaction_add (tx : Transaction) (i : Instruction)
  : Transaction :=
  {| instructions := instructions tx ++ [i];
     recentBlockhash := recentBlockhash tx;
     feePayer := feePayer tx;
     signatures := signatures tx |}.

(** [await signTransaction(transaction)] *)
Definition call_signer (signTransaction : Signer) (tx : Transaction)
  : Async Transaction :=
  perform (fun h => signTransaction h tx) (SignerCall tx).

(** [sendPingTransaction(connection, fromPubkey, toPubkey, signTransaction)] *)
Definition sendPingTransaction (connection : Connection)
    (fromPubkey toPubkey : PublicKey) (signTransaction : Signer)
  : Async string :=
  try_catch
    (let transaction :=
       Transaction_add new_Transaction
         (SystemTransfer fromPubkey toPubkey 0) in
     latest <- getLatestBlockhash connection ;;
     let blockhash := fst latest in
     let lastValidBlockHeight := snd latest in
     let transaction :=
       {| instructions := instructions transaction;
          recentBlockhash := Some blockhash;
          feePayer := Some fromPubkey;
          signatures := signatures transaction |} in
     signedTransaction <- call_signer signTransaction transaction ;;
     raw <- lift (serialize W signedTransaction) ;;
     signature <- sendRawTransaction connection raw ;;
     confirmTransaction connection signature blockhash
       lastValidBlockHeight ;;;
     ret signature)
    (fun error =>
       throw (ErrorObj ("Failed to send ping transaction: "
                        ++ error_message error))).

End Program.

(** ** Vocabulary of the properties *)

(** The optional validator fields go with the DELEGATED status, and the
    result names the caller's input. *)
Definition result_invariant (input : string) (r : DelegationResult) : Prop :=
  (validatorIdentity r <> None <-> status r = DELEGATED)
  /\ (rawData r <> None <-> status r = DELEGATED)
  /\ accountPubkey r = input.

(** The key that [DELEGATION_PROGRAM_STR] stands for. *)
Definition delegation_program : PublicKey :=
  mkPublicKey
    82191964697935119457304698719014317153249058529023526996863877687928147715902%N.

(** What the batch loop pushes for [pubkey] when the history is [hi]. *)
Definition batch_slot (W : World) (rpcUrl : option string) (pubkey : string)
    (hi : History) : DelegationResult :=
  match fst (checkDelegation W pubkey rpcUrl hi) with
  | inr r => r
  | inl _ => placeholder pubkey
  end.

(** The text of a thrown value, whether or not it is an [Error]. *)
Definition thrown_text (t : Thrown) : string :=
  match t with
  | ErrorObj message => message
  | NonError shown => shown
  end.

(** [s.endsWith(suffix)] *)
Definition ends_with (s suffix : string) : bool :=
  Nat.leb (String.length suffix) (String.length s)
  && String.eqb
       (substring (String.length s - String.length suffix)
          (String.length suffix) s)
       suffix.

(** A wrapped error carries its cause when it is an [Error] whose message
    ends with the text of the cause. *)
Definition carries_cause (wrapped cause : Thrown) : Prop :=
  match wrapped with
  | ErrorObj message => ends_with message (thrown_text cause) = true
  | NonError _ => False
  end.

(** The ping's submit and confirm calls. *)
Definition is_submit_or_confirm (ev : Event) : bool :=
  match ev with
  | RpcSendRawTransaction _ _ _ | RpcConfirmTransaction _ _ _ _ _ => true
  | _ => false
  end.

(** The value an outside party threw, if the event records a failure. *)
Definition event_failure (ev : Event) : option Thrown :=
  match ev with
  | RpcGetAccountInfo _ _ _ (inl e)
  | RpcGetLatestBlockhash _ (inl e)
  | SignerCall _ (inl e)
  | RpcSendRawTransaction _ _ (inl e)
  | RpcConfirmTransaction _ _ _ _ (inl e) => Some e
  | _ => None
  end.

(** ** A small concrete world

    Used to run the program on explicit inputs: derivation always lands on
    [sample_pda], every endpoint is accepted, and the account read gives a
    fixed answer. *)

Module Sample.

Definition account : string := "9WzDXwBbmkg8ZTbNMqUxvQRAyrZzDsGYdLVL9zYtAWWM".

Definition sample_pda : PublicKey := mkPublicKey 7%N.

Definition validator_bytes : Buffer.t := repeat x02 32.

(** A 96-byte record: eight bytes of tag, the validator, 56 more bytes. *)
Definition record : Buffer.t :=
  repeat x01 8 ++ validator_bytes ++ repeat x00 56.

Definition funded (bytes : Buffer.t) : AccountInfo :=
  {| lamports := 1447680%N;
     owner := mkPublicKey 5%N;
     data := bytes;
     executable := false;
     rentEpoch := 361%N |}.

Definition drained (bytes : Buffer.t) : AccountInfo :=
  {| lamports := 0%N;
     owner := mkPublicKey 5%N;
     data := bytes;
     executable := false;
     rentEpoch := 361%N |}.

Definition blockhash : string :=
  "EkSnNWid2cvwEVnVx9aBqawnmiCNiDgp3gUdkDPTKN1N".

Definition signature : string :=
  "5VERv8NMvzbJMEkV8xnrLkEaWRtSz9CosKDYjCJjBRnb".

Definition world (answer : Completion (option AccountInfo)) : World :=
  {| findProgramAddressSync := fun _ _ => inr (sample_pda, 255%N);
     endpoint_rejected := fun _ => None;
     getAccountInfo_answer := fun _ _ _ _ => answer;
     getLatestBlockhash_answer := fun _ _ => inr (blockhash, 1000%N);
     serialize := fun _ => inr [x01];
     sendRawTransaction_answer := fun _ _ _ => inr signature;
     confirmTransaction_answer := fun _ _ _ _ _ => inr None |}.

Definition connection : Connection :=
  mkConnection DEFAULT_RPC_URL "confirmed".

(** A wallet that signs nothing and hands the transaction back. *)
Definition accepting_signer : Signer := fun _ tx => inr tx.

(** A wallet whose user declines; the adapter rejects with [cause]. *)
Definition rejecting_signer (cause : Thrown) : Signer := fun _ _ => inl cause.

Definition payer : PublicKey := mkPublicKey 11%N.
Definition target : PublicKey := mkPublicKey 13%N.

(** The transaction [sendPingTransaction] hands to the signer in this
    world. *)
Definition unsigned_ping : Transaction :=
  {| instructions := [SystemTransfer payer target 0%N];
     recentBlockhash := Some blockhash;
     feePayer := Some payer;
     signatures := [] |}.

End Sample.

(** ** The command line of [check_delegation.ts] *)

(** What the script does as a process: the events of the library code,
    [console.error] of a label and a text, and [process.exit]. *)
Inductive ProcessEvent : Type :=
| Observed (ev : Event)
| ConsoleErrorText (label : string) (text : option string)
| ProcessExit (code : N).

Definition double_quote : string := String "034"%char EmptyString.
Definition backslash : string := String "092"%char EmptyString.
Definition newline : string := String "010"%char EmptyString.

(** [error.message] of a caught value; a value that is not an [Error] is
    taken to have no such property ([undefined]). *)
Definition message_property (error : Thrown) : option string :=
  match error with
  | ErrorObj message => Some message
  | NonError _ => None
  end.

Section CommandLine.

Variable W : World.

(** [JSON.stringify(result, null, 2)] *)
Variable JSON_stringify : DelegationResult -> string.

(** The lines printed after a DELEGATED result. *)
Definition router_usage (result : DelegationResult) : list Event :=
  [ConsoleLog (newline ++ "🎯 Magic Router API Usage:");
   ConsoleLog ("curl -X POST " ++ double_quote
               ++ "https://api.magicrouter.com/getAccountInfo"
               ++ double_quote ++ " " ++ backslash);
   ConsoleLog ("  -H " ++ double_quote ++ "Content-Type: application/json"
               ++ double_quote ++ " " ++ backslash);
   ConsoleLog ("  -d '{" ++ double_quote ++ "pubkey" ++ double_quote ++ ": "
               ++ double_quote ++ accountPubkey result ++ double_quote
               ++ "}'")].

(** The top-level block guarded by [typeof process !== 'undefined' &&
    process.argv], run with [process.argv = argv]. *)
Definition cli_main (argv : list string) (h : History) : list ProcessEvent :=
  let args := skipn 2 argv in
  match args with
  | [] =>
      [Observed
         (ConsoleLog
            "Usage: npx ts-node check_delegation.ts <pubkey> [rpc_url]");
       Observed
         (ConsoleLog
            ("Example: npx ts-node check_delegation.ts "
             ++ "9WzDXwBbmkg8ZTbNMqUxvQRAyrZzDsGYdLVL9zYtAWWM"));
       ProcessExit 1]
  | pubkey :: _ =>
      let rpcUrl := nth_error args 1 in
      let run := checkDelegation W pubkey rpcUrl h in
      map Observed (snd run)
      ++ match fst run with
         | inr result =>
             map Observed
               ([ConsoleLog (newline ++ "=== DELEGATION CHECK RESULT ===");
                 ConsoleLog (JSON_stringify result)]
                ++ match status result with
                   | DELEGATED => router_usage result
                   | NOT_DELEGATED => []
                   end)
         | inl error =>
             [ConsoleErrorText "Error:" (message_property error);
              ProcessExit 1]
         end
  end.

End CommandLine.

(** ** The React components

    [DelegationChecker.tsx] repeats the resolver without console output and
    drives it from a form; the wallet-enabled component adds the ping
    handler.  A handler is modelled by the sequence of state setters and
    outside events it performs. *)

Module Component.

Record FormState : Type := mkFormState {
  form_accountPubkey : string;
  form_rpcUrl : string
}.

(** What [useWallet()] gives the component. *)
Record Wallet : Type := mkWallet {
  connected : bool;
  publicKey : option PublicKey;
  signTransaction : option Signer
}.

Inductive Action : Type :=
| PreventDefault
| SetLoading (value : bool)
| SetResult (value : option DelegationResult)
| SetError (value : option string)
| SetPingLoading (value : bool)
| SetPingResult (value : option string)
| SetPingError (value : option string)
| Outside (ev : Event).

(** The [useState] cells the handlers write. *)
Record State : Type := mkState {
  loading : bool;
  result : option DelegationResult;
  error : option string;
  pingLoading : bool;
  pingResult : option string;
  pingError : option string
}.

Definition apply (st : State) (a : Action) : State :=
  match a with
  | PreventDefault | Outside _ => st
  | SetLoading v =>
      mkState v (result st) (error st) (pingLoading st) (pingResult st)
        (pingError st)
  | SetResult v =>
      mkState (loading st) v (error st) (pingLoading st) (pingResult st)
        (pingError st)
  | SetError v =>
      mkState (loading st) (result st) v (pingLoading st) (pingResult st)
        (pingError st)
  | SetPingLoading v =>
      mkState (loading st) (result st) (error st) v (pingResult st)
        (pingError st)
  | SetPingResult v =>
      mkState (loading st) (result st) (error st) (pingLoading st) v
        (pingError st)
  | SetPingError v =>
      mkState (loading st) (result st) (error st) (pingLoading st)
        (pingResult st) v
  end.

(** The state once every setter of a handler has been applied. *)
Definition settle (st : State) (actions : list Action) : State :=
  fold_left apply actions st.

(** The outside events among the actions. *)
Definition outside (actions : list Action) : list Event :=
  flat_map (fun a => match a with Outside ev => [ev] | _ => [] end) actions.

(** [err instanceof Error ? err.message : 'Unknown error occurred'] *)
Definition shown_error (err : Thrown) : string :=
  match err with
  | ErrorObj message => message
  | NonError _ => "Unknown error occurred"
  end.

(** [s || undefined] *)
Definition or_undefined (s : string) : option string :=
  match s with
  | EmptyString => None
  | String _ _ => Some s
  end.

Section WithWorld.

Variable W : World.

(** [String.prototype.trim] *)
Variable trim : string -> string.

(** [checkDelegation] of [DelegationChecker.tsx]: the resolver without
    console output. *)
Definition checkDelegation (accountPubkeyStr : string)
    (rpcUrl : option string) : Async DelegationResult :=
  let finalRpcUrl := or_default rpcUrl DEFAULT_RPC_URL in
  try_catch
    (accountPubkey <- lift (PublicKeyOps.ofString accountPubkeyStr) ;;
     connection <- lift (new_Connection W finalRpcUrl "confirmed") ;;
     delegationPDA <- getDelegationRecordPDA W accountPubkey ;;
     pdaAccountInfo <- getAccountInfo W connection delegationPDA "confirmed" ;;
     let result :=
       {| accountPubkey := accountPubkeyStr;
          delegationPDA := PublicKeyOps.toString delegationPDA;
          status := NOT_DELEGATED;
          validatorIdentity := None;
          pdaAccount := None;
          rawData := None |} in
     match pdaAccountInfo with
     | None => ret result
     | Some info =>
         if (lamports info =? 0)%N then ret result
         else
           let stored :=
             {| pda_lamports := lamports info;
                pda_owner := PublicKeyOps.toString (owner info);
                dataLength := List.length (data info);
                pda_executable := executable info;
                pda_rentEpoch := rentEpoch info |} in
           identity <- lift (extractDelegationIdentity (data info)) ;;
           match identity with
           | Some key =>
               ret {| accountPubkey := accountPubkeyStr;
                      delegationPDA := PublicKeyOps.toString delegationPDA;
                      status := DELEGATED;
                      validatorIdentity := Some (PublicKeyOps.toString key);
                      pdaAccount := Some stored;
                      rawData :=
                        Some {| discriminator :=
                                  Array_from (Buffer.slice 0 8 (data info));
                                identityBytes :=
                                  Array_from (Buffer.slice 8 40 (data info)) |} |}
           | None =>
               ret {| accountPubkey := accountPubkeyStr;
                      delegationPDA := PublicKeyOps.toString delegationPDA;
                      status := NOT_DELEGATED;
                      validatorIdentity := None;
                      pdaAccount := Some stored;
                      rawData := None |}
           end
     end)
    (fun error =>
       throw (ErrorObj ("Failed to check delegation: " ++ error_message error))).

(** [handleSubmit] of [DelegationChecker.tsx] *)
Definition handleSubmit (formState : FormState) (h : History) : list Action :=
  PreventDefault ::
  match trim (form_accountPubkey formState) with
  | EmptyString => [SetError (Some "Please enter an account public key")]
  | String _ _ =>
      let run :=
        checkDelegation (trim (form_accountPubkey formState))
          (or_undefined (trim (form_rpcUrl formState))) h in
      [SetLoading true; SetError None; SetResult None]
      ++ map Outside (snd run)
      ++ match fst run with
         | inr delegationResult => [SetResult (Some delegationResult)]
         | inl err => [SetError (Some (shown_error err))]
         end
      ++ [SetLoading false]
  end.

(** [handlePingTransaction] of the wallet-enabled component *)
Definition handlePingTransaction (wallet : Wallet) (formState : FormState)
    (h : History) : list Action :=
  match connected wallet, publicKey wallet, signTransaction wallet with
  | true, Some walletKey, Some sign =>
      match trim (form_accountPubkey formState) with
      | EmptyString =>
          [SetPingError (Some "Please enter an account public key first")]
      | String _ _ =>
          let run :=
            (targetPubkey <-
               lift (PublicKeyOps.ofString
                       (trim (form_accountPubkey formState))) ;;
             let rpcUrl :=
               or_default (Some (trim (form_rpcUrl formState)))
                 DEFAULT_RPC_URL in
             connection <- lift (new_Connection W rpcUrl "confirmed") ;;
             sendPingTransaction W connection walletKey targetPubkey sign) h
          in
          [SetPingLoading true; SetPingError None; SetPingResult None]
          ++ map Outside (snd run)
          ++ match fst run with
             | inr signature => [SetPingResult (Some signature)]
             | inl err => [SetPingError (Some (shown_error err))]
             end
          ++ [SetPingLoading false]
      end
  | _, _, _ => [SetPingError (Some "Please connect your wallet first")]
  end.

End WithWorld.

End Component.

(** ** Vocabulary of the further properties *)

(** The transaction the ping hands to the signer: one transfer of zero
    lamports, the fetched blockhash, the sender as fee payer. *)
Definition ping_request (fromPubkey toPubkey : PublicKey)
    (blockhash : string) : Transaction :=
  {| instructions := [SystemTransfer fromPubkey toPubkey 0];
     recentBlockhash := Some blockhash;
     feePayer := Some fromPubkey;
     signatures := [] |}.

Definition is_signer_call (ev : Event) : bool :=
  match ev with
  | SignerCall _ _ => true
  | _ => false
  end.

(** The wallet's key and signer when the component may ping:
    [connected && publicKey && signTransaction]. *)
Definition wallet_ready (wallet : Component.Wallet)
  : option (PublicKey * Signer) :=
  match Component.connected wallet, Component.publicKey wallet,
        Component.signTransaction wallet with
  | true, Some walletKey, Some sign => Some (walletKey, sign)
  | _, _, _ => None
  end.

(** ** Inputs for running the script and the components *)

Module Scenario.

(** [process.argv] of [npx ts-node check_delegation.ts not-a-key]. *)
Definition argv_bad_key : list string :=
  ["node"; "check_delegation.ts"; "not-a-key"].

(** A stand-in for [JSON.stringify]. *)
Definition json (r : DelegationResult) : string :=
  "{ " ++ accountPubkey r ++ " }".

(** A stand-in for [trim] on inputs without surrounding blanks. *)
Definition trim (s : string) : string := s.

Definition form : Component.FormState :=
  {| Component.form_accountPubkey := DELEGATION_PROGRAM_STR;
     Component.form_rpcUrl := "" |}.

Definition wallet : Component.Wallet :=
  {| Component.connected := true;
     Component.publicKey := Some Sample.payer;
     Component.signTransaction := Some Sample.accepting_signer |}.

(** A cluster that refuses the submitted transaction. *)
Definition submit_refuses (cause : Thrown) : World :=
  let base := Sample.world (inr None) in
  {| findProgramAddressSync := findProgramAddressSync base;
     endpoint_rejected := endpoint_rejected base;
     getAccountInfo_answer := getAccountInfo_answer base;
     getLatestBlockhash_answer := getLatestBlockhash_answer base;
     serialize := serialize base;
     sendRawTransaction_answer := fun _ _ _ => inl cause;
     confirmTransaction_answer := confirmTransaction_answer base |}.

(** A library whose [serialize] throws on what the signer returned. *)
Definition serialize_throws (cause : Thrown) : World :=
  let base := Sample.world (inr None) in
  {| findProgramAddressSync := findProgramAddressSync base;
     endpoint_rejected := endpoint_rejected base;
     getAccountInfo_answer := getAccountInfo_answer base;
     getLatestBlockhash_answer := getLatestBlockhash_answer base;
     serialize := fun _ => inl cause;
     sendRawTransaction_answer := sendRawTransaction_answer base;
     confirmTransaction_answer := confirmTransaction_answer base |}.

Definition idle : Component.State :=
  {| Component.loading := false;
     Component.result := None;
     Component.error := None;
     Component.pingLoading := false;
     Component.pingResult := None;
     Component.pingError := None |}.

End Scenario.

(** * Properties *)

(** ** Bytes and big numbers *)

Lemma byte_to_N_bound (b : byte) : (Byte.to_N b < 256)%N.
Proof. destruct b; reflexivity. Qed.

Lemma byte_of_N_to_N (b : byte) (n : N) :
  Buffer.byte_of_N (Byte.to_N b + 256 * n) = b.
Proof.
  unfold Buffer.byte_of_N.
  replace ((Byte.to_N b + 256 * n) mod 256)%N with (Byte.to_N b).
  - now rewrite Byte.of_to_N.
  - pose proof (byte_to_N_bound b) as Hb.
    rewrite (N.mul_comm 256 n), N.Div0.mod_add.
    symmetry; now apply N.mod_small.
Qed.

Lemma le_of_N_of_le (l : Buffer.t) :
  Buffer.le_of_N (List.length l) (Buffer.N_of_le l) = l.
Proof.
  induction l as [|b rest IH]; [reflexivity|].
  cbn [List.length Buffer.le_of_N Buffer.N_of_le].
  rewrite byte_of_N_to_N. f_equal.
  replace ((Byte.to_N b + 256 * Buffer.N_of_le rest) / 256)%N
    with (Buffer.N_of_le rest); [exact IH|].
  pose proof (byte_to_N_bound b) as Hb.
  rewrite (N.mul_comm 256), N.div_add by discriminate.
  rewrite (N.div_small (Byte.to_N b)) by exact Hb. reflexivity.
Qed.

(** Reading a buffer as a big-endian number and writing the number back on
    as many bytes gives the buffer again. *)
Lemma be_of_N_of_be (l : Buffer.t) :
  Buffer.be_of_N (List.length l) (Buffer.N_of_be l) = l.
Proof.
  unfold Buffer.be_of_N, Buffer.N_of_be.
  rewrite <- (length_rev l), le_of_N_of_le. apply rev_involutive.
Qed.

Lemma N_of_le_bound (l : Buffer.t) :
  (Buffer.N_of_le l < 256 ^ N.of_nat (List.length l))%N.
Proof.
  induction l as [|b rest IH]; [reflexivity|].
  cbn [List.length Buffer.N_of_le].
  rewrite Nat2N.inj_succ, N.pow_succ_r'.
  pose proof (byte_to_N_bound b). lia.
Qed.

Lemma N_of_be_bound (l : Buffer.t) :
  (Buffer.N_of_be l < 256 ^ N.of_nat (List.length l))%N.
Proof.
  unfold Buffer.N_of_be. rewrite <- (length_rev l). apply N_of_le_bound.
Qed.

(** A number below [256^len] has at most [len] bytes. *)
Lemma byteLength_bound (n : N) (len : N) :
  (n < 256 ^ len)%N -> (BN.byteLength n <= len)%N.
Proof.
  intros Hn. unfold BN.byteLength.
  assert (Hsize : (N.size n <= 8 * len)%N).
  { destruct (N.eq_dec n 0) as [->|Hnz]; [cbn; lia|].
    rewrite N.size_log2 by exact Hnz.
    apply N.le_succ_l. apply N.log2_lt_pow2; [lia|].
    replace (2 ^ (8 * len))%N with (256 ^ len)%N; [exact Hn|].
    change 256%N with (2 ^ 8)%N. now rewrite <- N.pow_mul_r. }
  apply N.lt_succ_r.
  apply N.Div0.div_lt_upper_bound. lia.
Qed.

(** ** [PublicKey] *)

(** The constructor accepts every 32-byte buffer, and the key gives the
    same bytes back. *)
Lemma PublicKey_ofBytes_32 (bytes : Buffer.t) :
  List.length bytes = PUBLIC_KEY_LENGTH ->
  exists key, PublicKeyOps.ofBytes bytes = inr key
              /\ PublicKeyOps.toBuffer key = bytes.
Proof.
  intros Hlen. exists (mkPublicKey (BN.ofBytes bytes)). split.
  - unfold PublicKeyOps.ofBytes, PublicKeyOps.ofBN.
    pose proof (N_of_be_bound bytes) as Hb.
    apply byteLength_bound in Hb. rewrite Hlen in Hb.
    unfold BN.ofBytes.
    destruct (N.ltb_spec (N.of_nat PUBLIC_KEY_LENGTH)
                (BN.byteLength (Buffer.N_of_be bytes))); [lia|reflexivity].
  - unfold PublicKeyOps.toBuffer, BN.ofBytes. cbn [_bn].
    rewrite <- Hlen. apply be_of_N_of_be.
Qed.

(** A string the constructor refuses is refused with an [Error] carrying
    one of two messages. *)
Lemma PublicKey_ofString_error (value : string) (e : Thrown) :
  PublicKeyOps.ofString value = inl e ->
  e = ErrorObj "Non-base58 character"
  \/ e = ErrorObj "Invalid public key input".
Proof.
  unfold PublicKeyOps.ofString, bs58.decode, PublicKeyOps.ofBN,
    PublicKeyOps.invalid_input.
  destruct (bs58.strip_leader value) as [zeroes rest].
  destruct (bs58.value_from 0 rest) as [v|].
  - destruct (Nat.eqb _ _).
    + destruct (N.ltb _ _); [|discriminate]. intros [= <-]. now right.
    + intros [= <-]. now right.
  - intros [= <-]. now left.
Qed.

Lemma slice_length (start stop : nat) (l : Buffer.t) :
  stop <= List.length l ->
  List.length (Buffer.slice start stop l) = stop - start.
Proof.
  intros H. unfold Buffer.slice. rewrite length_firstn, length_skipn. lia.
Qed.

(** ** Record decoder *)

(** C4: on every 96-byte buffer the decoder does not throw and returns a
    key whose bytes are bytes 8..39 of the buffer, whatever the first eight
    bytes are. *)
Theorem extractDelegationIdentity_96 (data : Buffer.t) :
  List.length data = 96 ->
  exists key,
    extractDelegationIdentity data = inr (Some key)
    /\ PublicKeyOps.toBuffer key = Buffer.slice 8 40 data.
Proof.
  intros Hlen. unfold extractDelegationIdentity, DELEGATION_RECORD_DATA_SIZE.
  rewrite Hlen. cbn [Nat.eqb negb].
  destruct (PublicKey_ofBytes_32 (Buffer.slice 8 40 data)) as (key & Hk & Hb).
  - rewrite slice_length by lia. reflexivity.
  - exists key. rewrite Hk. split; [reflexivity|exact Hb].
Qed.

(** C5: on every buffer whose length is not 96 the decoder returns [null];
    it neither throws nor builds a key. *)
Theorem extractDelegationIdentity_wrong_length (data : Buffer.t) :
  List.length data <> 96 ->
  extractDelegationIdentity data = inr None.
Proof.
  intros Hlen. unfold extractDelegationIdentity, DELEGATION_RECORD_DATA_SIZE.
  destruct (Nat.eqb_spec (List.length data) 96); [contradiction|reflexivity].
Qed.

(** ** Delegation resolver *)

(** The program identifier constant is a well-formed key. *)
Lemma delegation_program_decodes :
  PublicKeyOps.ofString DELEGATION_PROGRAM_STR
  = inr delegation_program.
Proof. vm_compute. reflexivity. Qed.

Ltac run_async :=
  unfold checkDelegation, getDelegationRecordPDA, getAccountInfo,
    console_log, console_error, perform, emit, lift, throw, ret, bind,
    try_catch;
  cbn beta iota;
  rewrite ?delegation_program_decodes.

Ltac reduce_run :=
  cbn [fst snd app In status validatorIdentity rawData pdaAccount
       accountPubkey delegationPDA identityBytes discriminator].

(** Split a membership hypothesis over an explicit list of events. *)
Ltac pick_event H :=
  cbn [fst snd app In] in H;
  repeat (destruct H as [H|H]; [try discriminate H|]);
  try contradiction.

(** Follow [checkDelegation] through its stages, one goal per way the run
    can go. *)
Ltac walk_stages W :=
  run_async;
  destruct (PublicKeyOps.ofString _) as [e|key] eqn:Hparse;
  [| destruct (new_Connection W _ _) as [e|conn] eqn:Hconn;
     [| destruct (findProgramAddressSync W _ _) as [e|[found bump]] eqn:Hpda;
        [| destruct (getAccountInfo_answer W _ _ _ _) as [e|[info0|]] eqn:Hread;
           [| destruct (N.eqb_spec (lamports info0) 0) as [Hz|Hnz];
              [| destruct (extractDelegationIdentity (data info0))
                   as [e|[k|]] eqn:Hx ] | ] ] ] ];
  reduce_run.

Section Resolver.

Variable W : World.

(** C1: when the read at the derived address answers with a funded
    account holding exactly 96 bytes, the result is DELEGATED, its
    validator is the base-58 form of bytes 8..39 of the data, and the raw
    identity bytes are those same bytes. *)
Theorem checkDelegation_delegated
    (accountPubkeyStr : string) (rpcUrl : option string) (h : History)
    (connection : Connection) (pda : PublicKey) (level : string)
    (info : AccountInfo) :
  In (RpcGetAccountInfo connection pda level (inr (Some info)))
     (snd (checkDelegation W accountPubkeyStr rpcUrl h)) ->
  (0 < lamports info)%N ->
  List.length (data info) = 96 ->
  exists r raw,
    fst (checkDelegation W accountPubkeyStr rpcUrl h) = inr r
    /\ status r = DELEGATED
    /\ validatorIdentity r
       = Some (bs58.encode (Buffer.slice 8 40 (data info)))
    /\ rawData r = Some raw
    /\ identityBytes raw = Array_from (Buffer.slice 8 40 (data info)).
Proof.
  intros Hin Hpos Hlen. revert Hin.
  walk_stages W; intros Hin; pick_event Hin;
    injection Hin as _ _ _ ->; try lia.
  all: destruct (extractDelegationIdentity_96 (data info) Hlen)
    as (k' & Hk & Hbytes); rewrite Hx in Hk; try discriminate Hk.
  injection Hk as ->. unfold PublicKeyOps.toString. rewrite Hbytes.
  eexists _, _. repeat split.
Qed.

(** C2: when the read answers with a funded account whose data is not
    96 bytes long, the result is NOT_DELEGATED, the account metadata is
    filled in from the answer, and no validator is reported. *)
Theorem checkDelegation_malformed_record
    (accountPubkeyStr : string) (rpcUrl : option string) (h : History)
    (connection : Connection) (pda : PublicKey) (level : string)
    (info : AccountInfo) :
  In (RpcGetAccountInfo connection pda level (inr (Some info)))
     (snd (checkDelegation W accountPubkeyStr rpcUrl h)) ->
  (0 < lamports info)%N ->
  List.length (data info) <> 96 ->
  exists r,
    fst (checkDelegation W accountPubkeyStr rpcUrl h) = inr r
    /\ status r = NOT_DELEGATED
    /\ pdaAccount r
       = Some {| pda_lamports := lamports info;
                 pda_owner := PublicKeyOps.toString (owner info);
                 dataLength := List.length (data info);
                 pda_executable := executable info;
                 pda_rentEpoch := rentEpoch info |}
    /\ validatorIdentity r = None
    /\ rawData r = None.
Proof.
  intros Hin Hpos Hlen. revert Hin.
  walk_stages W; intros Hin; pick_event Hin;
    injection Hin as _ _ _ ->; try lia.
  all: rewrite (extractDelegationIdentity_wrong_length (data info) Hlen)
    in Hx; try discriminate Hx.
  eexists. repeat split.
Qed.

(** C3: when the read answers that the account is absent, or present
    with zero lamports, the result is NOT_DELEGATED and carries nothing
    but the input key and the derived address. *)
Theorem checkDelegation_absent_or_empty
    (accountPubkeyStr : string) (rpcUrl : option string) (h : History)
    (connection : Connection) (pda : PublicKey) (level : string)
    (answer : option AccountInfo) :
  In (RpcGetAccountInfo connection pda level (inr answer))
     (snd (checkDelegation W accountPubkeyStr rpcUrl h)) ->
  (answer = None
   \/ exists info, answer = Some info /\ lamports info = 0%N) ->
  fst (checkDelegation W accountPubkeyStr rpcUrl h)
  = inr {| accountPubkey := accountPubkeyStr;
           delegationPDA := PublicKeyOps.toString pda;
           status := NOT_DELEGATED;
           validatorIdentity := None;
           pdaAccount := None;
           rawData := None |}.
Proof.
  intros Hin Hans. revert Hin.
  walk_stages W; intros Hin; pick_event Hin;
    injection Hin as _ -> _ <-; try reflexivity.
  all: destruct Hans as [Hans|(info & Hans & Hzero)];
    [discriminate Hans|injection Hans as <-; contradiction].
Qed.

(** C6: a string that is not the base-58 form of 32 bytes makes
    [checkDelegation] throw an [Error] that wraps the constructor's
    message, and the run contains no RPC call. *)
Theorem checkDelegation_invalid_key
    (accountPubkeyStr : string) (rpcUrl : option string) (h : History)
    (cause : Thrown) :
  PublicKeyOps.ofString accountPubkeyStr = inl cause ->
  fst (checkDelegation W accountPubkeyStr rpcUrl h)
  = inl (ErrorObj ("Failed to check delegation: " ++ error_message cause))
  /\ (error_message cause = "Non-base58 character"
      \/ error_message cause = "Invalid public key input")
  /\ Forall (fun ev => is_network ev = false)
       (snd (checkDelegation W accountPubkeyStr rpcUrl h)).
Proof.
  intros Hbad. split; [|split].
  - run_async. rewrite Hbad. reflexivity.
  - destruct (PublicKey_ofString_error _ _ Hbad) as [->| ->]; auto.
  - run_async. rewrite Hbad. reduce_run.
    repeat constructor.
Qed.

Lemma checkDelegation_invariant
    (accountPubkeyStr : string) (rpcUrl : option string) (h : History)
    (r : DelegationResult) :
  fst (checkDelegation W accountPubkeyStr rpcUrl h) = inr r ->
  result_invariant accountPubkeyStr r.
Proof.
  unfold result_invariant.
  walk_stages W; intros Hr; try discriminate Hr; injection Hr as <-;
    reduce_run; intuition congruence.
Qed.

Lemma placeholder_invariant (pubkey : string) :
  result_invariant pubkey (placeholder pubkey).
Proof. unfold result_invariant, placeholder. cbn. intuition congruence. Qed.

(** *** The batch loop *)

Variable rpcUrl : option string.

Lemma checkMultiple_loop_slots (pubkeys : list string) :
  forall (results : list DelegationResult) (h : History),
  exists pushed,
    fst (checkMultiple_loop W pubkeys rpcUrl results h)
    = inr (results ++ pushed)
    /\ Forall2
         (fun pubkey r =>
            exists more, r = batch_slot W rpcUrl pubkey (h ++ more))
         pubkeys pushed.
Proof.
  induction pubkeys as [|pubkey rest IH]; intros results h.
  - exists []. cbn. rewrite app_nil_r. split; constructor.
  - cbn [checkMultiple_loop].
    unfold bind at 1. unfold try_catch, bind, ret, console_error, emit.
    assert (Hslot : batch_slot W rpcUrl pubkey (h ++ [])
                    = batch_slot W rpcUrl pubkey h)
      by now rewrite app_nil_r.
    unfold batch_slot at 2 in Hslot.
    destruct (checkDelegation W pubkey rpcUrl h) as [[e|r] out];
      cbn [fst snd] in Hslot |- *.
    all: match goal with
         | IH' : forall acc' h'', exists _, _
           |- context [checkMultiple_loop _ ?keys _ ?acc ?h'] =>
             destruct (IH' acc h') as (pushed & Hrun & Hall);
             destruct (checkMultiple_loop _ keys _ acc h') as [res evs]
         end.
    all: cbn [fst snd] in Hrun |- *; subst res.
    all: rewrite <- app_assoc; eexists (_ :: pushed);
      split; [reflexivity|].
    all: constructor; [exists []; symmetry; exact Hslot|].
    all: eapply Forall2_impl; [|exact Hall].
    all: intros key r' [more ->]; rewrite <- app_assoc; eexists; reflexivity.
Qed.

Lemma checkMultipleDelegations_slots (pubkeys : list string) (h : History) :
  exists results,
    fst (checkMultipleDelegations W pubkeys rpcUrl h) = inr results
    /\ Forall2
         (fun pubkey r =>
            exists more, r = batch_slot W rpcUrl pubkey (h ++ more))
         pubkeys results.
Proof.
  unfold checkMultipleDelegations, bind, console_log, emit.
  match goal with
  | |- context [checkMultiple_loop W pubkeys rpcUrl [] ?h'] =>
      destruct (checkMultiple_loop_slots pubkeys [] h')
        as (pushed & Hrun & Hall);
      destruct (checkMultiple_loop W pubkeys rpcUrl [] h') as [res evs]
  end.
  cbn [fst snd app] in Hrun |- *. subst res.
  exists pushed. split; [reflexivity|].
  eapply Forall2_impl; [|exact Hall].
  intros key r' [more ->]. rewrite <- app_assoc. eexists; reflexivity.
Qed.

(** C7: the batch never throws; it returns one result per input key, in
    input order; the slot of a key whose check threw holds the
    placeholder (NOT_DELEGATED, empty PDA), every other slot holds what
    [checkDelegation] returned for that key. *)
Theorem checkMultipleDelegations_isolates
    (pubkeys : list string) (h : History) :
  exists results,
    fst (checkMultipleDelegations W pubkeys rpcUrl h) = inr results
    /\ List.length results = List.length pubkeys
    /\ Forall2
         (fun pubkey r =>
            exists more,
              fst (checkDelegation W pubkey rpcUrl (h ++ more)) = inr r
              \/ ((exists e,
                      fst (checkDelegation W pubkey rpcUrl (h ++ more))
                      = inl e)
                  /\ r = {| accountPubkey := pubkey;
                            delegationPDA := "";
                            status := NOT_DELEGATED;
                            validatorIdentity := None;
                            pdaAccount := None;
                            rawData := None |}))
         pubkeys results.
Proof.
  destruct (checkMultipleDelegations_slots pubkeys h)
    as (results & Hrun & Hall).
  exists results. split; [exact Hrun|]. split.
  - symmetry. eapply Forall2_length. exact Hall.
  - eapply Forall2_impl; [|exact Hall].
    intros key r [more ->]. exists more. unfold batch_slot.
    destruct (fst (checkDelegation W key rpcUrl (h ++ more))) as [e|r'].
    + right. split; [now exists e|reflexivity].
    + now left.
Qed.

(** C10: a result returned by [checkDelegation] has a validator and raw
    data exactly when it is DELEGATED, and names the input string; the
    same holds, key by key, for every entry of a batch, placeholders
    included. *)
Theorem delegation_result_invariant (h : History) :
  (forall accountPubkeyStr r,
      fst (checkDelegation W accountPubkeyStr rpcUrl h) = inr r ->
      result_invariant accountPubkeyStr r)
  /\ (forall pubkeys results,
         fst (checkMultipleDelegations W pubkeys rpcUrl h) = inr results ->
         Forall2 result_invariant pubkeys results).
Proof.
  split.
  - intros s r. apply checkDelegation_invariant.
  - intros pubkeys results Hrun.
    destruct (checkMultipleDelegations_slots pubkeys h)
      as (results' & Hrun' & Hall).
    rewrite Hrun in Hrun'. injection Hrun' as <-.
    eapply Forall2_impl; [|exact Hall].
    intros key r [more ->]. unfold batch_slot.
    destruct (fst (checkDelegation W key rpcUrl (h ++ more)))
      as [e|r'] eqn:Hone.
    + apply placeholder_invariant.
    + eapply checkDelegation_invariant. exact Hone.
Qed.

End Resolver.

(** ** Ping transaction *)

Ltac run_ping :=
  unfold sendPingTransaction, getLatestBlockhash, call_signer,
    sendRawTransaction, confirmTransaction, perform, lift, throw, ret, bind,
    try_catch;
  cbn beta iota.

Ltac walk_ping W sign :=
  run_ping;
  destruct (getLatestBlockhash_answer W _ _)
    as [e|[blockhash height]] eqn:Hlatest;
  [| destruct (sign _ _) as [e|signed] eqn:Hsign;
     [| destruct (serialize W _) as [e|raw] eqn:Hser;
        [| destruct (sendRawTransaction_answer W _ _ _)
             as [e|signature] eqn:Hsend;
           [| destruct (confirmTransaction_answer W _ _ _ _ _)
                as [e|outcome] eqn:Hconfirm ] ] ] ];
  cbn [fst snd app In].

Section Ping.

Variable W : World.
Variables (connection : Connection) (fromPubkey toPubkey : PublicKey).
Variable signTransaction : Signer.
Variable h : History.

(** C8, as the code has it: when the signer throws, the ping throws an
    [Error] whose message is the fixed prefix followed by the cause's
    message if the cause is an [Error] and by "Unknown error" otherwise,
    and neither submit nor confirm is called.  Every failure makes the
    ping fail in that way: as soon as an outside call of the run (blockhash
    fetch, signer, submit, confirm) threw a value, or [serialize] threw on
    what the signer returned, the ping throws the [Error] built from that
    value; and whenever the ping throws, it throws such an [Error], built
    from the value thrown by the step that failed. *)
Theorem sendPingTransaction_failure_wrapped :
  (forall unsigned cause,
      In (SignerCall unsigned (inl cause))
         (snd (sendPingTransaction W connection fromPubkey toPubkey
                 signTransaction h)) ->
      fst (sendPingTransaction W connection fromPubkey toPubkey
             signTransaction h)
      = inl (ErrorObj ("Failed to send ping transaction: "
                       ++ error_message cause))
      /\ Forall (fun ev => is_submit_or_confirm ev = false)
           (snd (sendPingTransaction W connection fromPubkey toPubkey
                   signTransaction h)))
  /\ (forall failed cause,
         In failed (snd (sendPingTransaction W connection fromPubkey
                           toPubkey signTransaction h)) ->
         event_failure failed = Some cause ->
         fst (sendPingTransaction W connection fromPubkey toPubkey
                signTransaction h)
         = inl (ErrorObj ("Failed to send ping transaction: "
                          ++ error_message cause)))
  /\ (forall unsigned returned cause,
         In (SignerCall unsigned (inr returned))
            (snd (sendPingTransaction W connection fromPubkey toPubkey
                    signTransaction h)) ->
         serialize W returned = inl cause ->
         fst (sendPingTransaction W connection fromPubkey toPubkey
                signTransaction h)
         = inl (ErrorObj ("Failed to send ping transaction: "
                          ++ error_message cause)))
  /\ (forall thrown,
         fst (sendPingTransaction W connection fromPubkey toPubkey
                signTransaction h) = inl thrown ->
         exists cause,
           thrown = ErrorObj ("Failed to send ping transaction: "
                              ++ error_message cause)
           /\ ((exists ev,
                   In ev (snd (sendPingTransaction W connection fromPubkey
                                 toPubkey signTransaction h))
                   /\ event_failure ev = Some cause)
               \/ exists unsigned signed,
                   In (SignerCall unsigned (inr signed))
                      (snd (sendPingTransaction W connection fromPubkey
                              toPubkey signTransaction h))
                   /\ serialize W signed = inl cause)).
Proof.
  split; [|split; [|split]].
  - intros unsigned cause.
    walk_ping W signTransaction; intros Hin; pick_event Hin.
    injection Hin as _ <-. split; [reflexivity|].
    repeat constructor.
  - intros failed cause.
    walk_ping W signTransaction; intros Hin Hfailed;
      repeat (destruct Hin as [<-|Hin]); try contradiction;
      cbn [event_failure] in Hfailed; try discriminate Hfailed;
      injection Hfailed as <-; reflexivity.
  - intros unsigned returned cause.
    walk_ping W signTransaction; intros Hin Hbad; pick_event Hin;
      injection Hin as _ <-; rewrite Hbad in Hser;
      try discriminate Hser; injection Hser as <-; reflexivity.
  - intros thrown.
    walk_ping W signTransaction; intros Hthrown;
      try discriminate Hthrown; injection Hthrown as <-;
      exists e; (split; [reflexivity|]).
    + left. eexists. split; [left; reflexivity|reflexivity].
    + left. eexists. split; [right; left; reflexivity|reflexivity].
    + right. eexists _, signed. split; [right; left; reflexivity|exact Hser].
    + left. eexists. split; [right; right; left; reflexivity|reflexivity].
    + left. eexists.
      split; [right; right; right; left; reflexivity|reflexivity].
Qed.

End Ping.

(** * The program on explicit inputs *)

Ltac find_event := vm_compute; repeat (first [left; reflexivity | right]).

(** A funded 96-byte record at the derived address. *)
Lemma checkDelegation_delegated_witness :
  let W := Sample.world (inr (Some (Sample.funded Sample.record))) in
  let info := Sample.funded Sample.record in
  exists r raw,
    fst (checkDelegation W Sample.account None []) = inr r
    /\ status r = DELEGATED
    /\ validatorIdentity r = Some (bs58.encode (Buffer.slice 8 40 (data info)))
    /\ rawData r = Some raw
    /\ identityBytes raw = Array_from (Buffer.slice 8 40 (data info)).
Proof.
  intros W info.
  apply (checkDelegation_delegated W Sample.account None []
           Sample.connection Sample.sample_pda "confirmed" info).
  - find_event.
  - reflexivity.
  - reflexivity.
Defined.

(** A funded account holding three bytes. *)
Lemma checkDelegation_malformed_record_witness :
  let info := Sample.funded [x01; x02; x03] in
  let W := Sample.world (inr (Some info)) in
  exists r,
    fst (checkDelegation W Sample.account None []) = inr r
    /\ status r = NOT_DELEGATED
    /\ pdaAccount r
       = Some {| pda_lamports := 1447680%N;
                 pda_owner := PublicKeyOps.toString (mkPublicKey 5%N);
                 dataLength := 3;
                 pda_executable := false;
                 pda_rentEpoch := 361%N |}
    /\ validatorIdentity r = None
    /\ rawData r = None.
Proof.
  intros info W.
  apply (checkDelegation_malformed_record W Sample.account None []
           Sample.connection Sample.sample_pda "confirmed" info).
  - find_event.
  - reflexivity.
  - discriminate.
Defined.

(** No account at the derived address. *)
Lemma checkDelegation_absent_or_empty_witness :
  fst (checkDelegation (Sample.world (inr None)) Sample.account None [])
  = inr {| accountPubkey := Sample.account;
           delegationPDA := PublicKeyOps.toString Sample.sample_pda;
           status := NOT_DELEGATED;
           validatorIdentity := None;
           pdaAccount := None;
           rawData := None |}.
Proof.
  apply (checkDelegation_absent_or_empty (Sample.world (inr None))
           Sample.account None [] Sample.connection Sample.sample_pda
           "confirmed" None).
  - find_event.
  - left. reflexivity.
Defined.

(** An account that exists with zero lamports is reported like an absent
    one, whatever it stores. *)
Example checkDelegation_drained_account :
  fst (checkDelegation
         (Sample.world (inr (Some (Sample.drained Sample.record))))
         Sample.account None [])
  = fst (checkDelegation (Sample.world (inr None)) Sample.account None []).
Proof. vm_compute. reflexivity. Qed.

Lemma extractDelegationIdentity_96_witness :
  exists key,
    extractDelegationIdentity Sample.record = inr (Some key)
    /\ PublicKeyOps.toBuffer key = Buffer.slice 8 40 Sample.record.
Proof.
  apply (extractDelegationIdentity_96 Sample.record). reflexivity.
Defined.

(** The tag in bytes 0..7 plays no part: another tag, same validator. *)
Example extractDelegationIdentity_ignores_tag :
  extractDelegationIdentity
    (repeat xff 8 ++ Sample.validator_bytes ++ repeat x00 56)
  = extractDelegationIdentity Sample.record.
Proof. vm_compute. reflexivity. Qed.

(** Lengths 0, 95, 97 and 1000. *)
Lemma extractDelegationIdentity_wrong_length_witness :
  extractDelegationIdentity [] = inr None
  /\ extractDelegationIdentity (repeat x00 95) = inr None
  /\ extractDelegationIdentity (repeat x00 97) = inr None
  /\ extractDelegationIdentity (repeat x00 1000) = inr None.
Proof.
  split; [|split; [|split]];
    apply extractDelegationIdentity_wrong_length;
    rewrite ?repeat_length; discriminate.
Defined.

(** The input ["not-a-key"] has a character outside the alphabet. *)
Lemma checkDelegation_invalid_key_witness :
  let W := Sample.world (inr None) in
  fst (checkDelegation W "not-a-key" None [])
  = inl (ErrorObj "Failed to check delegation: Non-base58 character")
  /\ Forall (fun ev => is_network ev = false)
       (snd (checkDelegation W "not-a-key" None [])).
Proof.
  intros W.
  destruct (checkDelegation_invalid_key W "not-a-key" None []
              (ErrorObj "Non-base58 character") eq_refl)
    as (Hthrown & _ & Hquiet).
  split; [exact Hthrown|exact Hquiet].
Defined.

(** A well-formed base-58 string of the wrong length is refused too. *)
Example short_key_refused :
  PublicKeyOps.ofString "9WzDXwBbmkg8ZTbNMqUx"
  = inl (ErrorObj "Invalid public key input").
Proof. vm_compute. reflexivity. Qed.

(** Three keys, the second malformed: three results, the second a
    placeholder, the others what the network gave. *)
Example batch_second_key_malformed :
  let W := Sample.world (inr (Some (Sample.funded Sample.record))) in
  match fst (checkMultipleDelegations W
               [Sample.account; "not-a-key"; DELEGATION_PROGRAM_STR] None [])
  with
  | inr results =>
      map (fun r => (accountPubkey r, delegationPDA r, status r)) results
      = [(Sample.account, PublicKeyOps.toString Sample.sample_pda, DELEGATED);
         ("not-a-key", "", NOT_DELEGATED);
         (DELEGATION_PROGRAM_STR, PublicKeyOps.toString Sample.sample_pda,
          DELEGATED)]
  | inl _ => False
  end.
Proof. vm_compute. reflexivity. Qed.

Lemma delegation_result_invariant_witness :
  let W := Sample.world (inr (Some (Sample.funded Sample.record))) in
  exists r,
    fst (checkDelegation W Sample.account None []) = inr r
    /\ result_invariant Sample.account r.
Proof.
  intros W. eexists. split.
  - vm_compute. reflexivity.
  - apply (proj1 (delegation_result_invariant W None [])).
    vm_compute. reflexivity.
Defined.

(** The wallet rejects with an [Error]: its message is kept, and nothing
    is submitted. *)
Lemma sendPingTransaction_failure_wrapped_witness :
  let W := Sample.world (inr None) in
  let sign := Sample.rejecting_signer (ErrorObj "User rejected the request") in
  let run :=
    sendPingTransaction W Sample.connection Sample.payer Sample.target sign []
  in
  (fst run
   = inl (ErrorObj
            "Failed to send ping transaction: User rejected the request")
   /\ Forall (fun ev => is_submit_or_confirm ev = false) (snd run))
  /\ fst (sendPingTransaction
            (Scenario.submit_refuses
               (ErrorObj "Transaction simulation failed"))
            Sample.connection Sample.payer Sample.target
            Sample.accepting_signer [])
     = inl (ErrorObj
              "Failed to send ping transaction: Transaction simulation failed")
  /\ fst (sendPingTransaction
            (Scenario.serialize_throws
               (ErrorObj "Signature verification failed"))
            Sample.connection Sample.payer Sample.target
            Sample.accepting_signer [])
     = inl (ErrorObj
              "Failed to send ping transaction: Signature verification failed").
Proof.
  intros W sign run. split; [|split].
  - apply (proj1 (sendPingTransaction_failure_wrapped W Sample.connection
                    Sample.payer Sample.target sign [])
             Sample.unsigned_ping (ErrorObj "User rejected the request")).
    find_event.
  - apply (proj1 (proj2 (sendPingTransaction_failure_wrapped
                           (Scenario.submit_refuses
                              (ErrorObj "Transaction simulation failed"))
                           Sample.connection Sample.payer Sample.target
                           Sample.accepting_signer []))
             (RpcSendRawTransaction Sample.connection [x01]
                (inl (ErrorObj "Transaction simulation failed")))
             (ErrorObj "Transaction simulation failed")).
    + find_event.
    + reflexivity.
  - apply (proj1 (proj2 (proj2 (sendPingTransaction_failure_wrapped
                                  (Scenario.serialize_throws
                                     (ErrorObj "Signature verification failed"))
                                  Sample.connection Sample.payer
                                  Sample.target Sample.accepting_signer [])))
             Sample.unsigned_ping Sample.unsigned_ping
             (ErrorObj "Signature verification failed")).
    + find_event.
    + reflexivity.
Defined.

(** The wallet rejects with a value that is not an [Error]: the ping's
    error says "Unknown error" and nothing of the cause survives. *)
Lemma sendPingTransaction_loses_non_error_cause :
  let W := Sample.world (inr None) in
  let cause := NonError "User rejected the request" in
  let run :=
    sendPingTransaction W Sample.connection Sample.payer Sample.target
      (Sample.rejecting_signer cause) []
  in
  In (SignerCall Sample.unsigned_ping (inl cause)) (snd run)
  /\ fst run = inl (ErrorObj "Failed to send ping transaction: Unknown error")
  /\ ~ (exists wrapped, fst run = inl wrapped /\ carries_cause wrapped cause).
Proof.
  intros W cause run. split; [|split].
  - find_event.
  - vm_compute. reflexivity.
  - intros (wrapped & Hrun & Hcarries).
    vm_compute in Hrun. injection Hrun as <-.
    vm_compute in Hcarries. discriminate Hcarries.
Qed.

(** With an accepting wallet the ping goes through and returns the
    signature the cluster gave. *)
Example sendPingTransaction_confirmed :
  fst (sendPingTransaction (Sample.world (inr None)) Sample.connection
         Sample.payer Sample.target Sample.accepting_signer [])
  = inr Sample.signature.
Proof. vm_compute. reflexivity. Qed.

(** * Further properties of the resolver *)

(** The decoder never throws: it answers a key on 96 bytes and [null]
    otherwise. *)
Lemma extractDelegationIdentity_cases (data : Buffer.t) :
  (List.length data = 96
   /\ exists key, extractDelegationIdentity data = inr (Some key)
                  /\ PublicKeyOps.toBuffer key = Buffer.slice 8 40 data)
  \/ (List.length data <> 96 /\ extractDelegationIdentity data = inr None).
Proof.
  unfold extractDelegationIdentity, DELEGATION_RECORD_DATA_SIZE.
  destruct (Nat.eqb_spec (List.length data) 96) as [Hlen|Hlen];
    cbn [negb]; [left|right; split; [exact Hlen|reflexivity]].
  split; [exact Hlen|].
  destruct (PublicKey_ofBytes_32 (Buffer.slice 8 40 data)) as (key & Hk & Hb).
  - rewrite slice_length by lia. reflexivity.
  - exists key. rewrite Hk. split; [reflexivity|exact Hb].
Qed.

(** [walk_stages], with the decoder's throwing case removed and its two
    answers tied to the length of the data. *)
Ltac walk_resolver W :=
  walk_stages W;
  try match goal with
      | Hx : extractDelegationIdentity ?d = _ |- _ =>
          let Hlen := fresh "Hlen" in
          let k' := fresh "k'" in
          let Hk := fresh "Hk" in
          let Hbytes := fresh "Hbytes" in
          destruct (extractDelegationIdentity_cases d)
            as [(Hlen & k' & Hk & Hbytes)|(Hlen & Hk)];
          rewrite Hx in Hk; try discriminate Hk;
          try (injection Hk as <-)
      end.

Section ResolverMore.

Variable W : World.

(** X1: whenever [checkDelegation] throws, it throws one [Error] whose
    message is "Failed to check delegation: " followed by the message of
    the value that made it fail ("Unknown error" if that value is not an
    [Error]); that value was logged with [console.error], and it came from
    parsing the key, from opening the connection, from the derivation or
    from the account read. *)
Theorem checkDelegation_failure_wrapped
    (accountPubkeyStr : string) (rpcUrl : option string) (h : History)
    (thrown : Thrown) :
  fst (checkDelegation W accountPubkeyStr rpcUrl h) = inl thrown ->
  exists cause,
    thrown = ErrorObj ("Failed to check delegation: " ++ error_message cause)
    /\ In (ConsoleError "Error checking delegation:" cause)
         (snd (checkDelegation W accountPubkeyStr rpcUrl h))
    /\ (PublicKeyOps.ofString accountPubkeyStr = inl cause
        \/ endpoint_rejected W (or_default rpcUrl DEFAULT_RPC_URL)
           = Some cause
        \/ (exists key,
               PublicKeyOps.ofString accountPubkeyStr = inr key
               /\ findProgramAddressSync W
                    [TextEncoder_encode "delegation";
                     PublicKeyOps.toBuffer key] delegation_program
                  = inl cause)
        \/ exists connection pda level,
             In (RpcGetAccountInfo connection pda level (inl cause))
                (snd (checkDelegation W accountPubkeyStr rpcUrl h))).
Proof.
  walk_resolver W; intros Hthrown; try discriminate Hthrown;
    injection Hthrown as <-; exists e; (split; [reflexivity|]).
  - split; [cbn; tauto|]. now left.
  - split; [cbn; tauto|]. right; left.
    unfold new_Connection in Hconn.
    destruct (endpoint_rejected W _) as [e'|]; [|discriminate Hconn].
    now injection Hconn as ->.
  - split; [cbn; tauto|]. right; right; left. exists key. now split.
  - split; [cbn; tauto|]. right; right; right.
    eexists _, _, _. cbn. right; right; right. left. reflexivity.
Qed.

(** X2: a run of [checkDelegation] makes at most one RPC call.  Either it
    throws before any call, or its only call is [getAccountInfo] at the
    address derived from the parsed key, at level "confirmed", on a
    connection to [rpcUrl || DEFAULT_RPC_URL] opened with "confirmed"; and
    every result it returns names that address. *)
Theorem checkDelegation_single_read
    (accountPubkeyStr : string) (rpcUrl : option string) (h : History) :
  ((exists e, fst (checkDelegation W accountPubkeyStr rpcUrl h) = inl e)
   /\ filter is_network (snd (checkDelegation W accountPubkeyStr rpcUrl h))
      = [])
  \/ exists key pda bump answer,
      PublicKeyOps.ofString accountPubkeyStr = inr key
      /\ findProgramAddressSync W
           [TextEncoder_encode "delegation"; PublicKeyOps.toBuffer key]
           delegation_program
         = inr (pda, bump)
      /\ filter is_network
           (snd (checkDelegation W accountPubkeyStr rpcUrl h))
         = [RpcGetAccountInfo
              (mkConnection (or_default rpcUrl DEFAULT_RPC_URL) "confirmed")
              pda "confirmed" answer]
      /\ forall r,
           fst (checkDelegation W accountPubkeyStr rpcUrl h) = inr r ->
           delegationPDA r = PublicKeyOps.toString pda.
Proof.
  walk_resolver W.
  1-3: left; split; [eexists; reflexivity|reflexivity].
  all: right; exists key, found, bump; eexists;
    (split; [reflexivity|]); (split; [exact Hpda|]).
  all: unfold new_Connection in Hconn;
    destruct (endpoint_rejected W _); [discriminate Hconn|];
    injection Hconn as <-.
  all: split; [reflexivity|].
  all: intros r Hr; try discriminate Hr; injection Hr as <-; reflexivity.
Qed.

(** X3: a returned result is DELEGATED exactly when the read answered an
    account with lamports other than zero and 96 bytes of data, and it
    carries account metadata exactly when the read answered an account
    with lamports other than zero. *)
Theorem checkDelegation_status_iff
    (accountPubkeyStr : string) (rpcUrl : option string) (h : History)
    (r : DelegationResult) :
  fst (checkDelegation W accountPubkeyStr rpcUrl h) = inr r ->
  (status r = DELEGATED
   <-> exists connection pda level info,
         In (RpcGetAccountInfo connection pda level (inr (Some info)))
            (snd (checkDelegation W accountPubkeyStr rpcUrl h))
         /\ lamports info <> 0%N
         /\ List.length (data info) = 96)
  /\ (pdaAccount r <> None
      <-> exists connection pda level info,
            In (RpcGetAccountInfo connection pda level (inr (Some info)))
               (snd (checkDelegation W accountPubkeyStr rpcUrl h))
            /\ lamports info <> 0%N).
Proof.
  walk_resolver W; intros Hr; try discriminate Hr; injection Hr as <-;
    reduce_run; (split; split).
  all: try (intros Hfalse; try discriminate Hfalse; now contradiction Hfalse).
  all: try (intros (c & p & l & info & Hin & Hnz' & Hlen');
            pick_event Hin; injection Hin as _ _ _ <-; congruence).
  all: try (intros (c & p & l & info & Hin & Hnz');
            pick_event Hin; injection Hin as _ _ _ <-; congruence).
  all: try (intros (c & p & l & info & Hin & _); pick_event Hin).
  all: intros _; exists conn, found, "confirmed", info0;
    repeat split; try assumption;
    cbn [In]; do 3 right; left; reflexivity.
Qed.

(** X4: the raw data of a result are cut from the account data that was
    read: the discriminator is its first 8 bytes, discriminator followed
    by identity bytes is its first 40 bytes, and the two have 8 and 32
    entries. *)
Theorem checkDelegation_raw_layout
    (accountPubkeyStr : string) (rpcUrl : option string) (h : History)
    (r : DelegationResult) (raw : RawData) :
  fst (checkDelegation W accountPubkeyStr rpcUrl h) = inr r ->
  rawData r = Some raw ->
  exists connection pda level info,
    In (RpcGetAccountInfo connection pda level (inr (Some info)))
       (snd (checkDelegation W accountPubkeyStr rpcUrl h))
    /\ discriminator raw = Array_from (firstn 8 (data info))
    /\ discriminator raw ++ identityBytes raw
       = Array_from (firstn 40 (data info))
    /\ List.length (discriminator raw) = 8
    /\ List.length (identityBytes raw) = 32.
Proof.
  walk_resolver W; intros Hr; try discriminate Hr; injection Hr as <-;
    reduce_run; intros Hraw; try discriminate Hraw; injection Hraw as <-.
  exists conn, found, "confirmed", info0.
  split; [cbn [In]; do 3 right; left; reflexivity|].
  cbn [discriminator identityBytes].
  unfold Array_from, Buffer.slice. rewrite !length_map.
  rewrite !length_firstn, !length_skipn. change (8 - 0) with 8.
  change (40 - 8) with 32. change (skipn 0 (data info0)) with (data info0).
  repeat split; try lia.
  rewrite <- map_app. f_equal.
  rewrite <- (firstn_skipn 8 (firstn 40 (data info0))) at 1.
  rewrite firstn_firstn, skipn_firstn_comm. reflexivity.
Qed.

(** *** The batch *)

Lemma checkDelegation_network_bound
    (accountPubkeyStr : string) (rpcUrl : option string) (h : History) :
  List.length
    (filter is_network (snd (checkDelegation W accountPubkeyStr rpcUrl h)))
  <= 1.
Proof. walk_resolver W; cbn [filter is_network List.length]; lia. Qed.

Variable rpcUrl : option string.

Lemma checkMultiple_loop_network_bound (pubkeys : list string) :
  forall (results : list DelegationResult) (h : History),
    List.length
      (filter is_network (snd (checkMultiple_loop W pubkeys rpcUrl results h)))
    <= List.length pubkeys.
Proof.
  induction pubkeys as [|pubkey rest IH]; intros results h.
  - cbn. lia.
  - cbn [checkMultiple_loop].
    unfold bind at 1. unfold try_catch, bind, ret, console_error, emit.
    pose proof (checkDelegation_network_bound pubkey rpcUrl h) as Hone.
    destruct (checkDelegation W pubkey rpcUrl h) as [[e|r] out];
      cbn [fst snd] in Hone |- *.
    all: match goal with
         | IH' : forall acc' h'', _ <= _
           |- context [checkMultiple_loop _ ?keys _ ?acc ?h'] =>
             pose proof (IH' acc h') as Hrest;
             destruct (checkMultiple_loop _ keys _ acc h') as [res evs]
         end.
    all: cbn [fst snd List.length] in Hrest |- *.
    all: rewrite !filter_app, !length_app; cbn [filter is_network List.length];
      lia.
Qed.

(** X5: a batch makes at most one RPC call per key. *)
Theorem checkMultipleDelegations_network_bound
    (pubkeys : list string) (h : History) :
  List.length
    (filter is_network (snd (checkMultipleDelegations W pubkeys rpcUrl h)))
  <= List.length pubkeys.
Proof.
  unfold checkMultipleDelegations, bind, console_log, emit.
  match goal with
  | |- context [checkMultiple_loop W pubkeys rpcUrl [] ?h'] =>
      pose proof (checkMultiple_loop_network_bound pubkeys [] h') as Hloop;
      destruct (checkMultiple_loop W pubkeys rpcUrl [] h') as [res evs]
  end.
  cbn [fst snd app filter is_network] in Hloop |- *. exact Hloop.
Qed.

Lemma checkMultiple_loop_failures_logged (pubkeys : list string) :
  forall (results : list DelegationResult) (h : History),
  exists pushed,
    fst (checkMultiple_loop W pubkeys rpcUrl results h)
    = inr (results ++ pushed)
    /\ Forall2
         (fun pubkey r =>
            exists more,
              fst (checkDelegation W pubkey rpcUrl (h ++ more)) = inr r
              \/ exists e,
                  fst (checkDelegation W pubkey rpcUrl (h ++ more)) = inl e
                  /\ r = placeholder pubkey
                  /\ In (ConsoleError
                           ("Failed to check delegation for " ++ pubkey ++ ":")
                           e)
                        (snd (checkMultiple_loop W pubkeys rpcUrl results h)))
         pubkeys pushed.
Proof.
  induction pubkeys as [|pubkey rest IH]; intros results h.
  - exists []. cbn. rewrite app_nil_r. split; constructor.
  - cbn [checkMultiple_loop].
    unfold bind at 1. unfold bind at 2.
    unfold try_catch, bind, ret, console_error, emit.
    assert (Hsame : checkDelegation W pubkey rpcUrl (h ++ [])
                    = checkDelegation W pubkey rpcUrl h)
      by now rewrite app_nil_r.
    destruct (checkDelegation W pubkey rpcUrl h) as [[e|r] out];
      cbn [fst snd].
    all: match goal with
         | IH' : forall acc' h'', exists _, _
           |- context [checkMultiple_loop _ ?keys _ ?acc ?h'] =>
             destruct (IH' acc h') as (pushed & Hrun & Hall);
             destruct (checkMultiple_loop _ keys _ acc h') as [res evs]
         end.
    all: cbn [fst snd] in Hrun, Hall |- *; subst res.
    all: rewrite <- app_assoc; eexists (_ :: pushed);
      split; [reflexivity|].
    all: constructor.
    + exists []. rewrite Hsame. right. exists e.
      repeat split. apply in_or_app. left.
      apply in_or_app. right. left. reflexivity.
    + eapply Forall2_impl; [|exact Hall].
      intros key r' [more Hcase]. rewrite <- (app_assoc h) in Hcase.
      eexists. destruct Hcase as [Hok|(e' & Hthrow & Hr' & Hin)].
      * left. exact Hok.
      * right. exists e'. split; [exact Hthrow|]. split; [exact Hr'|].
        apply in_or_app. right. exact Hin.
    + exists []. rewrite Hsame. now left.
    + eapply Forall2_impl; [|exact Hall].
      intros key r' [more Hcase]. rewrite <- (app_assoc h) in Hcase.
      eexists. destruct Hcase as [Hok|(e' & Hthrow & Hr' & Hin)].
      * left. exact Hok.
      * right. exists e'. split; [exact Hthrow|]. split; [exact Hr'|].
        apply in_or_app. right. exact Hin.
Qed.

(** X6: in a batch no failure is silent: each slot either holds what
    [checkDelegation] returned for its key, or holds the placeholder while
    the value thrown for that key was logged with [console.error] under
    "Failed to check delegation for <key>:". *)
Theorem checkMultipleDelegations_failures_logged
    (pubkeys : list string) (h : History) :
  exists results,
    fst (checkMultipleDelegations W pubkeys rpcUrl h) = inr results
    /\ Forall2
         (fun pubkey r =>
            exists more,
              fst (checkDelegation W pubkey rpcUrl (h ++ more)) = inr r
              \/ exists e,
                  fst (checkDelegation W pubkey rpcUrl (h ++ more)) = inl e
                  /\ r = placeholder pubkey
                  /\ In (ConsoleError
                           ("Failed to check delegation for " ++ pubkey ++ ":")
                           e)
                        (snd (checkMultipleDelegations W pubkeys rpcUrl h)))
         pubkeys results.
Proof.
  unfold checkMultipleDelegations, bind, console_log, emit.
  match goal with
  | |- context [checkMultiple_loop W pubkeys rpcUrl [] ?h'] =>
      destruct (checkMultiple_loop_failures_logged pubkeys [] h')
        as (pushed & Hrun & Hall);
      destruct (checkMultiple_loop W pubkeys rpcUrl [] h') as [res evs]
  end.
  cbn [fst snd app] in Hrun, Hall |- *. subst res.
  exists pushed. split; [reflexivity|].
  eapply Forall2_impl; [|exact Hall].
  intros key r' [more Hcase]. rewrite <- (app_assoc h) in Hcase.
  eexists. destruct Hcase as [Hok|(e' & Hthrow & Hr' & Hin)].
  - left. exact Hok.
  - right. exists e'. split; [exact Hthrow|]. split; [exact Hr'|].
    right. exact Hin.
Qed.

End ResolverMore.

(** * Further properties of the ping *)

Section PingMore.

Variable W : World.
Variables (connection : Connection) (fromPubkey toPubkey : PublicKey).
Variable signTransaction : Signer.
Variable h : History.

(** X7: a ping that returns did exactly four things, in this order:
    fetched the latest blockhash, asked the signer to sign the zero-lamport
    transfer carrying that blockhash and the sender as fee payer, submitted
    the serialization of what the signer returned, and confirmed the
    submitted signature against the fetched blockhash and height.  What it
    returns is the signature the submit call answered. *)
Theorem sendPingTransaction_success_trace (returned : string) :
  fst (sendPingTransaction W connection fromPubkey toPubkey signTransaction h)
  = inr returned ->
  exists blockhash height signed raw outcome,
    snd (sendPingTransaction W connection fromPubkey toPubkey
           signTransaction h)
    = [RpcGetLatestBlockhash connection (inr (blockhash, height));
       SignerCall (ping_request fromPubkey toPubkey blockhash) (inr signed);
       RpcSendRawTransaction connection raw (inr returned);
       RpcConfirmTransaction connection returned blockhash height
         (inr outcome)]
    /\ serialize W signed = inr raw.
Proof.
  walk_ping W signTransaction; intros Hok; try discriminate Hok.
  injection Hok as <-.
  exists blockhash, height, signed, raw, outcome.
  split; [reflexivity|exact Hser].
Qed.

(** X8: the ping calls the signer at most once, only after the blockhash
    was fetched, and only on the zero-lamport transfer from sender to
    target with that blockhash and the sender as fee payer. *)
Theorem sendPingTransaction_signer_discipline :
  List.length
    (filter is_signer_call
       (snd (sendPingTransaction W connection fromPubkey toPubkey
               signTransaction h)))
  <= 1
  /\ forall unsigned response,
      In (SignerCall unsigned response)
         (snd (sendPingTransaction W connection fromPubkey toPubkey
                 signTransaction h)) ->
      exists blockhash height,
        In (RpcGetLatestBlockhash connection (inr (blockhash, height)))
           (snd (sendPingTransaction W connection fromPubkey toPubkey
                   signTransaction h))
        /\ unsigned = ping_request fromPubkey toPubkey blockhash.
Proof.
  split.
  - walk_ping W signTransaction; cbn [filter is_signer_call List.length]; lia.
  - intros unsigned response.
    walk_ping W signTransaction; intros Hin; pick_event Hin;
      injection Hin as <- _; exists blockhash, height;
      (split; [left; reflexivity|reflexivity]).
Qed.

(** X9: the ping submits only on its own connection and only the
    serialization of a transaction the signer returned; it confirms only
    a signature that submit answered, with the blockhash and height it
    fetched; and once confirm returns, whatever it returns, the ping
    returns that signature. *)
Theorem sendPingTransaction_submit_confirm_discipline :
  (forall c raw response,
      In (RpcSendRawTransaction c raw response)
         (snd (sendPingTransaction W connection fromPubkey toPubkey
                 signTransaction h)) ->
      c = connection
      /\ exists unsigned signed,
          In (SignerCall unsigned (inr signed))
             (snd (sendPingTransaction W connection fromPubkey toPubkey
                     signTransaction h))
          /\ serialize W signed = inr raw)
  /\ (forall c signature blockhash height response,
         In (RpcConfirmTransaction c signature blockhash height response)
            (snd (sendPingTransaction W connection fromPubkey toPubkey
                    signTransaction h)) ->
         c = connection
         /\ In (RpcGetLatestBlockhash connection (inr (blockhash, height)))
              (snd (sendPingTransaction W connection fromPubkey toPubkey
                      signTransaction h))
         /\ (exists raw,
                In (RpcSendRawTransaction connection raw (inr signature))
                   (snd (sendPingTransaction W connection fromPubkey
                           toPubkey signTransaction h)))
         /\ forall outcome,
             response = inr outcome ->
             fst (sendPingTransaction W connection fromPubkey toPubkey
                    signTransaction h)
             = inr signature).
Proof.
  split.
  - intros c raw0 response.
    walk_ping W signTransaction; intros Hin; pick_event Hin;
      injection Hin as <- <- _; (split; [reflexivity|]);
      eexists _, signed; (split; [right; left; reflexivity|exact Hser]).
  - intros c signature0 blockhash0 height0 response.
    walk_ping W signTransaction; intros Hin; pick_event Hin;
      injection Hin as <- <- <- <- <-; (split; [reflexivity|]);
      (split; [left; reflexivity|]);
      (split; [eexists; right; right; left; reflexivity|]);
      intros outcome' Hout; try discriminate Hout; reflexivity.
Qed.

End PingMore.

(** * Properties of the command line *)

Ltac pick_process_event H :=
  cbn [map app In] in H;
  repeat (destruct H as [H|H]; [try discriminate H|]);
  try contradiction.

Section CommandLineMore.

Variable W : World.
Variable JSON_stringify : DelegationResult -> string.

Lemma Observed_not_exit (evs : list Event) (code : N) :
  ~ In (ProcessExit code) (map Observed evs).
Proof.
  induction evs as [|ev evs IH]; cbn; [tauto|].
  intros [H|H]; [discriminate H|auto].
Qed.

Lemma Observed_not_error_text (evs : list Event) (label : string)
    (text : option string) :
  ~ In (ConsoleErrorText label text) (map Observed evs).
Proof.
  induction evs as [|ev evs IH]; cbn; [tauto|].
  intros [H|H]; [discriminate H|auto].
Qed.

(** X10: the script exits, with code 1, exactly when no key was given or
    [checkDelegation] threw; with no key it makes no RPC call. *)
Theorem cli_main_exit (argv : list string) (h : History) (code : N) :
  (In (ProcessExit code) (cli_main W JSON_stringify argv h)
   <-> code = 1%N
       /\ (skipn 2 argv = []
           \/ exists pubkey rest e,
               skipn 2 argv = pubkey :: rest
               /\ fst (checkDelegation W pubkey (nth_error (pubkey :: rest) 1)
                         h)
                  = inl e))
  /\ (skipn 2 argv = [] ->
      Forall (fun pe => match pe with
                        | Observed ev => is_network ev = false
                        | _ => True
                        end)
        (cli_main W JSON_stringify argv h)).
Proof.
  unfold cli_main. destruct (skipn 2 argv) as [|pubkey rest].
  - split; [split|].
    + intros Hin. pick_process_event Hin. injection Hin as <-.
      split; [reflexivity|now left].
    + intros [-> _]. cbn [In]. right; right; left. reflexivity.
    + intros _. repeat constructor.
  - cbv zeta. split; [split|intros Hnil; discriminate Hnil].
    + intros Hin. apply in_app_or in Hin.
      destruct Hin as [Hin|Hin]; [now apply Observed_not_exit in Hin|].
      destruct (fst (checkDelegation W pubkey _ h)) as [e|r] eqn:Hrun.
      * pick_process_event Hin. injection Hin as <-.
        split; [reflexivity|]. right. exists pubkey, rest, e.
        split; [reflexivity|exact Hrun].
      * now apply Observed_not_exit in Hin.
    + intros [-> [Hnil|(pubkey' & rest' & e & Hargs & Hrun)]];
        [discriminate Hnil|].
      injection Hargs as <- <-. apply in_or_app. right.
      rewrite Hrun. right; left. reflexivity.
Qed.

(** X11: the only text the script prints with [console.error] is
    "Error:" followed by the wrapped message "Failed to check delegation:
    ..." (never [undefined]), and the script then exits with code 1. *)
Theorem cli_main_error_text (argv : list string) (h : History)
    (label : string) (text : option string) :
  In (ConsoleErrorText label text) (cli_main W JSON_stringify argv h) ->
  label = "Error:"
  /\ (exists cause,
         text = Some ("Failed to check delegation: "
                      ++ error_message cause)%string)
  /\ In (ProcessExit 1) (cli_main W JSON_stringify argv h).
Proof.
  unfold cli_main. destruct (skipn 2 argv) as [|pubkey rest].
  - intros Hin. pick_process_event Hin.
  - cbv zeta. generalize (nth_error (pubkey :: rest) 1). intros rpcUrl Hin.
    apply in_app_or in Hin.
    destruct Hin as [Hin|Hin]; [now apply Observed_not_error_text in Hin|].
    revert Hin. rewrite in_app_iff.
    walk_resolver W; intros Hin;
      try (now apply Observed_not_error_text in Hin);
      pick_process_event Hin; injection Hin as <- <-;
      (split; [reflexivity|]); (split; [exists e; reflexivity|]);
      right; cbn [In]; right; left; reflexivity.
Qed.

End CommandLineMore.

(** * Properties of the components *)

Ltac run_component :=
  unfold Component.checkDelegation, checkDelegation, getDelegationRecordPDA,
    getAccountInfo, console_log, console_error, perform, emit, lift, throw,
    ret, bind, try_catch;
  cbn beta iota;
  rewrite ?delegation_program_decodes.

Section ComponentMore.

Variable W : World.

(** X12: when the cluster's answers depend only on the RPC calls made so
    far, the component's console-free [checkDelegation] completes like the
    one of [check_delegation.ts], and its events are the RPC calls of the
    latter. *)
Theorem component_checkDelegation_agrees
    (accountPubkeyStr : string) (rpcUrl : option string) (h : History) :
  (forall h1 h2 connection address level,
      filter is_network h1 = filter is_network h2 ->
      getAccountInfo_answer W h1 connection address level
      = getAccountInfo_answer W h2 connection address level) ->
  fst (Component.checkDelegation W accountPubkeyStr rpcUrl h)
  = fst (checkDelegation W accountPubkeyStr rpcUrl h)
  /\ snd (Component.checkDelegation W accountPubkeyStr rpcUrl h)
     = filter is_network (snd (checkDelegation W accountPubkeyStr rpcUrl h)).
Proof.
  intros Hnet. run_component.
  destruct (PublicKeyOps.ofString accountPubkeyStr) as [e|key];
    [split; reflexivity|].
  destruct (new_Connection W _ _) as [e|conn]; [split; reflexivity|].
  destruct (findProgramAddressSync W _ _) as [e|[found bump]];
    [split; reflexivity|].
  cbn [fst snd].
  match goal with
  | |- context [getAccountInfo_answer W ?h1 conn found "confirmed"] =>
      match goal with
      | |- context [getAccountInfo_answer W ?h2 conn found "confirmed"] =>
          lazymatch h1 with
          | h2 => fail
          | _ => rewrite (Hnet h2 h1 conn found "confirmed")
          end
      end
  end.
  2: { rewrite !filter_app. cbn [filter is_network app].
       rewrite ?app_nil_r. reflexivity. }
  destruct (getAccountInfo_answer W _ _ _ _) as [e|[info0|]];
    [split; reflexivity| |split; reflexivity].
  destruct (N.eqb_spec (lamports info0) 0); [split; reflexivity|].
  destruct (extractDelegationIdentity (data info0)) as [e|[k|]];
    split; reflexivity.
Qed.

Lemma settle_app (st : Component.State) (a b : list Component.Action) :
  Component.settle st (a ++ b) = Component.settle (Component.settle st a) b.
Proof. unfold Component.settle. apply fold_left_app. Qed.

Lemma settle_outside (st : Component.State) (evs : list Event) :
  Component.settle st (map Component.Outside evs) = st.
Proof.
  unfold Component.settle.
  induction evs as [|ev evs IH]; [reflexivity|exact IH].
Qed.

Lemma outside_app (a b : list Component.Action) :
  Component.outside (a ++ b) = Component.outside a ++ Component.outside b.
Proof. unfold Component.outside. apply flat_map_app. Qed.

Lemma outside_map (evs : list Event) :
  Component.outside (map Component.Outside evs) = evs.
Proof.
  unfold Component.outside.
  induction evs as [|ev evs IH]; [reflexivity|]. cbn. now rewrite IH.
Qed.

(** Whatever the silent resolver throws is a wrapped [Error]. *)
Lemma component_checkDelegation_throws
    (accountPubkeyStr : string) (rpcUrl : option string) (h : History)
    (thrown : Thrown) :
  fst (Component.checkDelegation W accountPubkeyStr rpcUrl h) = inl thrown ->
  exists cause,
    thrown = ErrorObj ("Failed to check delegation: " ++ error_message cause).
Proof.
  run_component.
  destruct (PublicKeyOps.ofString accountPubkeyStr) as [e|key];
    [intros [= <-]; now exists e|].
  destruct (new_Connection W _ _) as [e|conn]; [intros [= <-]; now exists e|].
  destruct (findProgramAddressSync W _ _) as [e|[found bump]];
    [intros [= <-]; now exists e|].
  cbn [fst snd].
  destruct (getAccountInfo_answer W _ _ _ _) as [e|[info0|]];
    [intros [= <-]; now exists e| |intros H; discriminate H].
  destruct (N.eqb_spec (lamports info0) 0); [intros H; discriminate H|].
  destruct (extractDelegationIdentity_cases (data info0))
    as [(_ & k & -> & _)|(_ & ->)]; intros H; discriminate H.
Qed.

Variable trim : string -> string.

(** X13: [handleSubmit] leaves the ping cells alone.  On a blank key it
    does nothing outside, sets the error prompt and keeps [loading] and any
    earlier result.  Otherwise its outside events are those of one
    [checkDelegation] on the trimmed input, [loading] ends false, and
    either the result is set and the error cleared, or the result is
    cleared and the error is the wrapped message. *)
Theorem handleSubmit_settles
    (st : Component.State) (formState : Component.FormState) (h : History) :
  let actions := Component.handleSubmit W trim formState h in
  let st' := Component.settle st actions in
  let run :=
    Component.checkDelegation W (trim (Component.form_accountPubkey formState))
      (Component.or_undefined (trim (Component.form_rpcUrl formState))) h in
  Component.pingLoading st' = Component.pingLoading st
  /\ Component.pingResult st' = Component.pingResult st
  /\ Component.pingError st' = Component.pingError st
  /\ (trim (Component.form_accountPubkey formState) = "" ->
      Component.outside actions = []
      /\ Component.loading st' = Component.loading st
      /\ Component.result st' = Component.result st
      /\ Component.error st' = Some "Please enter an account public key")
  /\ (trim (Component.form_accountPubkey formState) <> "" ->
      Component.outside actions = snd run
      /\ Component.loading st' = false
      /\ ((exists r,
              fst run = inr r
              /\ Component.result st' = Some r
              /\ Component.error st' = None)
          \/ exists cause,
              fst run
              = inl (ErrorObj ("Failed to check delegation: "
                               ++ error_message cause))
              /\ Component.result st' = None
              /\ Component.error st'
                 = Some ("Failed to check delegation: "
                         ++ error_message cause)%string)).
Proof.
  cbv zeta. unfold Component.handleSubmit.
  destruct (trim (Component.form_accountPubkey formState)) as [|c rest].
  - cbn. do 3 (split; [reflexivity|]).
    split; [intros _; repeat split|intros Hne; now contradiction Hne].
  - set (run := Component.checkDelegation W (String c rest) _ h).
    pose proof (component_checkDelegation_throws (String c rest)
                  (Component.or_undefined
                     (trim (Component.form_rpcUrl formState))) h) as Hthrows.
    fold run in Hthrows.
    change (Component.PreventDefault :: ?l)
      with ([Component.PreventDefault] ++ l).
    rewrite !settle_app, !outside_app, settle_outside, outside_map.
    destruct (fst run) as [e|r].
    + destruct (Hthrows e eq_refl) as (cause & ->).
      cbn. rewrite app_nil_r. do 3 (split; [reflexivity|]).
      split; [intros Hblank; discriminate Hblank|intros _].
      do 2 (split; [reflexivity|]).
      right. exists cause. repeat split.
    + cbn. rewrite app_nil_r. do 3 (split; [reflexivity|]).
      split; [intros Hblank; discriminate Hblank|intros _].
      do 2 (split; [reflexivity|]).
      left. exists r. repeat split.
Qed.

(** Whatever the ping throws is a wrapped [Error]. *)
Lemma sendPingTransaction_throws
    (connection : Connection) (fromPubkey toPubkey : PublicKey)
    (sign : Signer) (h : History) (thrown : Thrown) :
  fst (sendPingTransaction W connection fromPubkey toPubkey sign h)
  = inl thrown ->
  exists cause,
    thrown = ErrorObj ("Failed to send ping transaction: "
                       ++ error_message cause).
Proof.
  walk_ping W sign; intros Hthrown; try discriminate Hthrown;
    injection Hthrown as <-; now exists e.
Qed.

(** X14: [handlePingTransaction] leaves the check cells alone and does
    nothing outside (no signer call, no RPC call) when the wallet is not
    ready, when the key is blank, or when the key does not parse; it shows
    the wallet prompt, the key prompt, or the constructor's message
    (unwrapped, with [pingLoading] back to false). *)
Theorem handlePingTransaction_guards
    (st : Component.State) (wallet : Component.Wallet)
    (formState : Component.FormState) (h : History) :
  let actions := Component.handlePingTransaction W trim wallet formState h in
  let st' := Component.settle st actions in
  let typed := trim (Component.form_accountPubkey formState) in
  Component.loading st' = Component.loading st
  /\ Component.result st' = Component.result st
  /\ Component.error st' = Component.error st
  /\ (wallet_ready wallet = None ->
      Component.outside actions = []
      /\ Component.pingLoading st' = Component.pingLoading st
      /\ Component.pingResult st' = Component.pingResult st
      /\ Component.pingError st' = Some "Please connect your wallet first")
  /\ (wallet_ready wallet <> None -> typed = "" ->
      Component.outside actions = []
      /\ Component.pingLoading st' = Component.pingLoading st
      /\ Component.pingResult st' = Component.pingResult st
      /\ Component.pingError st'
         = Some "Please enter an account public key first")
  /\ (wallet_ready wallet <> None -> typed <> "" ->
      forall e,
        PublicKeyOps.ofString typed = inl e ->
        Component.outside actions = []
        /\ Component.pingLoading st' = false
        /\ Component.pingResult st' = None
        /\ Component.pingError st' = Some (error_message e)
        /\ (error_message e = "Non-base58 character"
            \/ error_message e = "Invalid public key input")).
Proof.
  cbv zeta. unfold Component.handlePingTransaction, wallet_ready.
  destruct (Component.connected wallet),
    (Component.publicKey wallet) as [walletKey|],
    (Component.signTransaction wallet) as [sign|].
  2-8: cbn; do 3 (split; [reflexivity|]);
    (split; [intros _; repeat split|]);
    (split; intros Hready; now contradiction Hready).
  destruct (trim (Component.form_accountPubkey formState)) as [|c rest].
  - cbn. do 3 (split; [reflexivity|]).
    split; [intros Hnone; discriminate Hnone|].
    split; [intros _ _; repeat split|].
    intros _ Hne. now contradiction Hne.
  - match goal with
    | |- context [fst ?r] => set (run := r)
    end.
    rewrite !settle_app, !outside_app, settle_outside, outside_map.
    split; [|split; [|split]];
      try (destruct (fst run); reflexivity).
    split; [intros Hnone; discriminate Hnone|].
    split; [intros _ Hblank; discriminate Hblank|].
    intros _ _ e Hbad.
    pose proof (PublicKey_ofString_error _ _ Hbad) as Hmsg.
    subst run. unfold bind, lift. cbn beta iota. rewrite Hbad.
    destruct Hmsg as [->| ->]; cbn; repeat split; auto.
Qed.

(** X15: with a ready wallet, a key that parses and an accepted endpoint,
    the outside events of [handlePingTransaction] are those of one
    [sendPingTransaction] from the wallet's key to the parsed key on a
    "confirmed" connection to [rpcUrl || DEFAULT_RPC_URL]; [pingLoading]
    ends false, and either the signature is shown and the error cleared,
    or no signature is shown and the error is the wrapped message. *)
Theorem handlePingTransaction_outcome
    (st : Component.State) (wallet : Component.Wallet)
    (formState : Component.FormState) (h : History)
    (walletKey target : PublicKey) (sign : Signer) :
  let actions := Component.handlePingTransaction W trim wallet formState h in
  let st' := Component.settle st actions in
  let typed := trim (Component.form_accountPubkey formState) in
  let url :=
    or_default (Some (trim (Component.form_rpcUrl formState)))
      DEFAULT_RPC_URL in
  let ping :=
    sendPingTransaction W (mkConnection url "confirmed") walletKey target
      sign h in
  wallet_ready wallet = Some (walletKey, sign) ->
  typed <> "" ->
  PublicKeyOps.ofString typed = inr target ->
  endpoint_rejected W url = None ->
  Component.outside actions = snd ping
  /\ Component.pingLoading st' = false
  /\ ((exists signature,
          fst ping = inr signature
          /\ Component.pingResult st' = Some signature
          /\ Component.pingError st' = None)
      \/ exists cause,
          fst ping
          = inl (ErrorObj ("Failed to send ping transaction: "
                           ++ error_message cause))
          /\ Component.pingResult st' = None
          /\ Component.pingError st'
             = Some ("Failed to send ping transaction: "
                     ++ error_message cause)%string).
Proof.
  cbv zeta. unfold Component.handlePingTransaction, wallet_ready.
  destruct (Component.connected wallet),
    (Component.publicKey wallet) as [walletKey'|],
    (Component.signTransaction wallet) as [sign'|];
    intros Hready; try discriminate Hready.
  injection Hready as -> ->.
  destruct (trim (Component.form_accountPubkey formState)) as [|c rest];
    [intros Hne; now contradiction Hne|].
  intros _ Hkey Hend.
  match goal with
  | |- context [fst ?r] => set (run := r)
  end.
  assert (Hrun : run
                 = sendPingTransaction W
                     (mkConnection
                        (or_default
                           (Some (trim (Component.form_rpcUrl formState)))
                           DEFAULT_RPC_URL) "confirmed")
                     walletKey target sign h).
  { subst run. unfold bind, lift, new_Connection.
    rewrite Hkey, Hend. cbn beta iota. rewrite !app_nil_r.
    destruct (sendPingTransaction W _ walletKey target sign h) as [[e|sig] evs];
      reflexivity. }
  rewrite Hrun. clear run Hrun.
  pose proof (sendPingTransaction_throws
                (mkConnection
                   (or_default (Some (trim (Component.form_rpcUrl formState)))
                      DEFAULT_RPC_URL) "confirmed")
                walletKey target sign h) as Hthrows.
  rewrite !outside_app, outside_map, !settle_app, settle_outside.
  destruct (sendPingTransaction W _ walletKey target sign h) as [[e|sig] evs].
  - destruct (Hthrows e eq_refl) as (cause & ->).
    cbn. rewrite app_nil_r. do 2 (split; [reflexivity|]).
    right. exists cause. repeat split.
  - cbn. rewrite app_nil_r. do 2 (split; [reflexivity|]).
    left. exists sig. repeat split.
Qed.

End ComponentMore.

(** * The further properties on explicit inputs *)

(** The read fails: the resolver throws the wrapped message. *)
Lemma checkDelegation_failure_wrapped_witness :
  let W := Sample.world (inl (ErrorObj "fetch failed")) in
  exists cause,
    ErrorObj "Failed to check delegation: fetch failed"
    = ErrorObj ("Failed to check delegation: " ++ error_message cause)
    /\ In (ConsoleError "Error checking delegation:" cause)
         (snd (checkDelegation W Sample.account None []))
    /\ (PublicKeyOps.ofString Sample.account = inl cause
        \/ endpoint_rejected W (or_default None DEFAULT_RPC_URL) = Some cause
        \/ (exists key,
               PublicKeyOps.ofString Sample.account = inr key
               /\ findProgramAddressSync W
                    [TextEncoder_encode "delegation";
                     PublicKeyOps.toBuffer key] delegation_program
                  = inl cause)
        \/ exists connection pda level,
             In (RpcGetAccountInfo connection pda level (inl cause))
                (snd (checkDelegation W Sample.account None []))).
Proof.
  intros W.
  apply (checkDelegation_failure_wrapped W Sample.account None []).
  vm_compute. reflexivity.
Defined.

Lemma checkDelegation_status_iff_witness :
  let W := Sample.world (inr (Some (Sample.funded Sample.record))) in
  exists r,
    fst (checkDelegation W Sample.account None []) = inr r
    /\ status r = DELEGATED
    /\ pdaAccount r <> None.
Proof.
  intros W. eexists. split; [vm_compute; reflexivity|].
  match goal with
  | |- status ?r = _ /\ _ =>
      destruct (checkDelegation_status_iff W Sample.account None [] r)
        as [Hstatus Hmeta]; [vm_compute; reflexivity|]
  end.
  split.
  - apply Hstatus.
    exists Sample.connection, Sample.sample_pda, "confirmed",
      (Sample.funded Sample.record).
    split; [find_event|]. split; [discriminate|reflexivity].
  - apply Hmeta.
    exists Sample.connection, Sample.sample_pda, "confirmed",
      (Sample.funded Sample.record).
    split; [find_event|discriminate].
Defined.

Lemma checkDelegation_raw_layout_witness :
  let W := Sample.world (inr (Some (Sample.funded Sample.record))) in
  exists r raw,
    fst (checkDelegation W Sample.account None []) = inr r
    /\ rawData r = Some raw
    /\ discriminator raw = Array_from (repeat x01 8)
    /\ List.length (identityBytes raw) = 32.
Proof.
  intros W. eexists. eexists.
  split; [vm_compute; reflexivity|]. split; [reflexivity|].
  match goal with
  | |- discriminator ?raw = _ /\ _ =>
      destruct (checkDelegation_raw_layout W Sample.account None [] _ raw
                  eq_refl eq_refl)
        as (c & p & l & info & Hin & Hdisc & _ & _ & Hlen)
  end.
  split; [reflexivity|exact Hlen].
Defined.

Lemma sendPingTransaction_success_trace_witness :
  let W := Sample.world (inr None) in
  exists blockhash height signed raw outcome,
    snd (sendPingTransaction W Sample.connection Sample.payer Sample.target
           Sample.accepting_signer [])
    = [RpcGetLatestBlockhash Sample.connection (inr (blockhash, height));
       SignerCall (ping_request Sample.payer Sample.target blockhash)
         (inr signed);
       RpcSendRawTransaction Sample.connection raw (inr Sample.signature);
       RpcConfirmTransaction Sample.connection Sample.signature blockhash
         height (inr outcome)]
    /\ serialize W signed = inr raw.
Proof.
  intros W.
  apply (sendPingTransaction_success_trace W Sample.connection Sample.payer
           Sample.target Sample.accepting_signer [] Sample.signature).
  vm_compute. reflexivity.
Defined.

(** [npx ts-node check_delegation.ts not-a-key] *)
Lemma cli_main_error_text_witness :
  let W := Sample.world (inr None) in
  let text := Some "Failed to check delegation: Non-base58 character" in
  "Error:" = "Error:"
  /\ (exists cause,
         text = Some ("Failed to check delegation: "
                      ++ error_message cause)%string)
  /\ In (ProcessExit 1)
       (cli_main W Scenario.json Scenario.argv_bad_key []).
Proof.
  intros W text.
  apply (cli_main_error_text W Scenario.json Scenario.argv_bad_key []
           "Error:" text).
  vm_compute. repeat (first [left; reflexivity | right]).
Defined.

Lemma component_checkDelegation_agrees_witness :
  let W := Sample.world (inr (Some (Sample.funded Sample.record))) in
  fst (Component.checkDelegation W Sample.account None [])
  = fst (checkDelegation W Sample.account None [])
  /\ snd (Component.checkDelegation W Sample.account None [])
     = filter is_network (snd (checkDelegation W Sample.account None [])).
Proof.
  intros W.
  apply (component_checkDelegation_agrees W Sample.account None []).
  intros h1 h2 connection address level _. reflexivity.
Defined.

(** A connected wallet pings the program's own key. *)
Lemma handlePingTransaction_outcome_witness :
  let W := Sample.world (inr None) in
  let actions :=
    Component.handlePingTransaction W Scenario.trim Scenario.wallet
      Scenario.form [] in
  let st' := Component.settle Scenario.idle actions in
  let ping :=
    sendPingTransaction W (mkConnection DEFAULT_RPC_URL "confirmed")
      Sample.payer delegation_program Sample.accepting_signer [] in
  Component.outside actions = snd ping
  /\ Component.pingLoading st' = false
  /\ ((exists signature,
          fst ping = inr signature
          /\ Component.pingResult st' = Some signature
          /\ Component.pingError st' = None)
      \/ exists cause,
          fst ping
          = inl (ErrorObj ("Failed to send ping transaction: "
                           ++ error_message cause))
          /\ Component.pingResult st' = None
          /\ Component.pingError st'
             = Some ("Failed to send ping transaction: "
                     ++ error_message cause)%string).
Proof.
  intros W actions st' ping.
  apply (handlePingTransaction_outcome W Scenario.trim Scenario.idle
           Scenario.wallet Scenario.form [] Sample.payer delegation_program
           Sample.accepting_signer).
  - reflexivity.
  - discriminate.
  - exact delegation_program_decodes.
  - reflexivity.
Defined.

(** The script on a malformed key: the resolver's two lines, its error
    line, the script's error line, exit code 1, and no RPC call. *)
Example cli_main_bad_key :
  cli_main (Sample.world (inr None)) Scenario.json Scenario.argv_bad_key []
  = [Observed (ConsoleLog "Checking delegation for account: not-a-key");
     Observed (ConsoleLog "Using RPC URL: https://api.devnet.solana.com");
     Observed (ConsoleError "Error checking delegation:"
                 (ErrorObj "Non-base58 character"));
     ConsoleErrorText "Error:"
       (Some "Failed to check delegation: Non-base58 character");
     ProcessExit 1].
Proof. vm_compute. reflexivity. Qed.

(** Submitting the form with the program's key against a funded record
    ends with the result shown, no error and [loading] off. *)
Example handleSubmit_delegated :
  let W := Sample.world (inr (Some (Sample.funded Sample.record))) in
  let st' :=
    Component.settle Scenario.idle
      (Component.handleSubmit W Scenario.trim Scenario.form []) in
  Component.loading st' = false
  /\ Component.error st' = None
  /\ option_map status (Component.result st') = Some DELEGATED.
Proof. vm_compute. repeat split. Qed.
